(** * ResuMate: the PDF-to-image converter (app/lib/pdf2img.ts), the file
      uploader (app/Components/FileUploader.tsx), the upload page and the
      result page

    A shallow embedding of [loadPdfJs], [convertPdfToImage], the uploader's
    [onDrop], [removeFile] and [formatSize], the upload page's
    [handleSubmit] and [handleAnalyze] (both versions) and the result
    page's [loadResumeData], together with the properties the
    specification states about them and further properties read off the
    code.

    Modelling conventions.
    - A JavaScript string is a [string]; [toLowerCase] changes the ASCII
      letters only (no non-ASCII character lower-cases to one of the
      letters of [".pdf"], so the tests below see the same thing).
    - A value caught by [catch (err)] is a [Thrown]: an [Error] instance
      with its [message], or any other value with its [String(err)].
    - An [await] is represented by the settlement it resumes with, which
      the environment ([Env]) chooses; a promise that never settles is
      outside the model.
    - Module-level variables ([pdfjsLib], [loadPromise]) live in an explicit
      state; promises are cells of a heap addressed by index, so that every
      holder of a promise observes the same settlement.
    - [console.log] / [console.error] calls are not represented. *)

From Stdlib Require Import ZArith NArith QArith Lia Bool Ascii String List DecimalString.
From stdpp Require Import base list.
Import ListNotations.
Local Open Scope string_scope.

(* ===================================================================== *)
(** ** JavaScript string primitives used by the converter                *)
(* ===================================================================== *)

Module JsString.

(** [s.startsWith(p)] *)
Fixpoint startsWith (s p : string) {struct p} : bool :=
  match p, s with
  | EmptyString, _ => true
  | String _ _, EmptyString => false
  | String c p', String d s' => Ascii.eqb c d && startsWith s' p'
  end.

(** [s.includes(p)]: [p] starts at some position of [s]. *)
Fixpoint includes (s p : string) : bool :=
  startsWith s p ||
  match s with
  | EmptyString => false
  | String _ s' => includes s' p
  end.

(** [s.endsWith(p)]: some suffix of [s] is [p]. *)
Fixpoint endsWith (s p : string) : bool :=
  String.eqb s p ||
  match s with
  | EmptyString => false
  | String _ s' => endsWith s' p
  end.

Definition isUpper (c : ascii) : bool :=
  ((65 <=? nat_of_ascii c) && (nat_of_ascii c <=? 90))%nat.

Definition lowerChar (c : ascii) : ascii :=
  if isUpper c then ascii_of_nat (nat_of_ascii c + 32) else c.

(** [s.toLowerCase()] *)
Fixpoint toLowerCase (s : string) : string :=
  match s with
  | EmptyString => EmptyString
  | String c s' => String (lowerChar c) (toLowerCase s')
  end.

(** Two strings are equal up to ASCII case: what a literal pattern under
    the [i] flag accepts. *)
Definition eqbCI (s p : string) : bool :=
  String.eqb (toLowerCase s) (toLowerCase p).

(** [s.replace(/<pat>$/i, repl)] for a literal pattern [pat]: the pattern is
    anchored at the end of the input, so the first (and only) position
    where it can match is the one whose remaining suffix is [pat] up to
    case; without a match the string is returned unchanged. *)
Fixpoint replaceAtEndCI (pat repl s : string) : string :=
  if eqbCI s pat then repl
  else match s with
       | EmptyString => EmptyString
       | String c s' => String c (replaceAtEndCI pat repl s')
       end.

End JsString.

(* ===================================================================== *)
(** ** Values of the browser and of the rendering library                *)
(* ===================================================================== *)

(** What a [catch] clause receives. *)
Inductive Thrown : Type :=
| ErrorInstance (message : string)   (* err instanceof Error, err.message *)
| OtherValue (asString : string).    (* anything else, String(err)        *)

(** How an awaited promise resumes, or how a call completes. *)
Inductive Completion (A : Type) : Type :=
| Normal (a : A)
| Throw (e : Thrown).
Arguments Normal {A} a.
Arguments Throw {A} e.

(** A [Blob]: [size], [type] and the bytes. *)
Module Blob.
Record t : Type := mk { size : Z; type : string; content : list Byte.byte }.
End Blob.

(** A [File]: a blob with a [name] and a [lastModified] stamp. *)
Module File.
Record t : Type := mk {
  name : string;
  type : string;
  size : Z;
  content : list Byte.byte;
  lastModified : Z
}.
End File.

(** The module object of pdfjs-dist, as far as the converter touches it:
    an identity and [GlobalWorkerOptions.workerSrc]. *)
Record PdfJs : Type := mkPdfJs { moduleId : nat; workerSrc : string }.

(** [page.getViewport({ scale })] *)
Record Viewport : Type := mkViewport { width : Q; height : Q }.

(** The canvas the page is drawn on, with the 2D context settings the
    converter writes. *)
Record Canvas : Type := mkCanvas {
  canvasWidth : Q;
  canvasHeight : Q;
  imageSmoothingEnabled : bool;
  imageSmoothingQuality : string
}.

(** [export interface PdfConversionResult] *)
Record PdfConversionResult : Type := mkResult {
  imageUrl : string;
  file : option File.t;        (* File | null *)
  error : option string        (* error?: string *)
}.

(* ===================================================================== *)
(** ** The library loader: [pdfjsLib], [loadPromise], [loadPdfJs]         *)
(* ===================================================================== *)

Module Loader.

(** A promise cell of the heap. *)
Inductive PromiseState : Type :=
| Pending
| Fulfilled (lib : PdfJs)
| Rejected (e : Thrown).

(** The two module-level variables and the heap of promises created by
    [import(...).then(...)]; one cell per import started. *)
Record State : Type := mkState {
  pdfjsLib : option PdfJs;        (* let pdfjsLib: any = null *)
  loadPromise : option nat;       (* let loadPromise: Promise<any> | null = null *)
  promises : list PromiseState
}.

Definition init : State :=
  {| pdfjsLib := None; loadPromise := None; promises := [] |}.

(** The number of [import("pdfjs-dist/build/pdf.mjs")] started so far. *)
Definition importsStarted (s : State) : nat := length (promises s).

(** What the call hands to its caller: the memoized module, or a promise. *)
Inductive Returned : Type :=
| Handle (lib : PdfJs)
| InFlight (p : nat).

(** [async function loadPdfJs()], up to its [return]. Both [import()] and
    [.then()] return a promise without throwing, and the promise is
    returned without being awaited, so the [catch] clause of the source is
    never entered and is not represented. The promise an [async] function
    wraps around its return value settles as the returned one does; the two
    are identified. *)
Definition loadPdfJs (s : State) : Returned * State :=
  match pdfjsLib s with
  | Some lib => (Handle lib, s)                       (* if (pdfjsLib) return pdfjsLib *)
  | None =>
      match loadPromise s with
      | Some p => (InFlight p, s)                     (* if (loadPromise) return loadPromise *)
      | None =>
          let p := length (promises s) in             (* loadPromise = import(...).then(...) *)
          (InFlight p,
           {| pdfjsLib := None;
              loadPromise := Some p;
              promises := (promises s ++ [Pending])%list |})
      end
  end.

(** The [.then] callback: sets the worker source, memoizes the module and
    fulfils the promise with it. *)
Definition configure (workerUrl : string) (lib : PdfJs) : PdfJs :=
  {| moduleId := moduleId lib; workerSrc := workerUrl |}.

(** The import behind promise [p] succeeds with module [lib]. *)
Definition resolveImport (workerUrl : string) (p : nat) (lib : PdfJs) (s : State) : State :=
  match promises s !! p with
  | Some Pending =>
      {| pdfjsLib := Some (configure workerUrl lib);
         loadPromise := loadPromise s;
         promises := <[p := Fulfilled (configure workerUrl lib)]> (promises s) |}
  | _ => s
  end.

(** The import behind promise [p] fails with [e]: the callback does not
    run, the derived promise is rejected with the same reason. *)
Definition rejectImport (p : nat) (e : Thrown) (s : State) : State :=
  match promises s !! p with
  | Some Pending =>
      {| pdfjsLib := pdfjsLib s;
         loadPromise := loadPromise s;
         promises := <[p := Rejected e]> (promises s) |}
  | _ => s
  end.

(** What can happen to the loader in one process. *)
Inductive Event : Type :=
| Call
| ImportResolves (p : nat) (lib : PdfJs)
| ImportRejects (p : nat) (e : Thrown).

Definition isCall (ev : Event) : bool :=
  match ev with
  | Call => true
  | _ => false
  end.

Definition step (workerUrl : string) (s : State) (ev : Event) : State :=
  match ev with
  | Call => snd (loadPdfJs s)
  | ImportResolves p lib => resolveImport workerUrl p lib s
  | ImportRejects p e => rejectImport p e s
  end.

Definition run (workerUrl : string) (evs : list Event) (s : State) : State :=
  fold_left (step workerUrl) evs s.

(** The shape every state reached from [init] has. *)
Inductive Shape : State -> Prop :=
| ShapeIdle : Shape init
| ShapeLoading : Shape {| pdfjsLib := None; loadPromise := Some 0; promises := [Pending] |}
| ShapeLoaded lib :
    Shape {| pdfjsLib := Some lib; loadPromise := Some 0; promises := [Fulfilled lib] |}
| ShapeFailed e :
    Shape {| pdfjsLib := None; loadPromise := Some 0; promises := [Rejected e] |}.

End Loader.

(* ===================================================================== *)
(** ** The environment of one conversion and the effect monad            *)
(* ===================================================================== *)

(** Opaque handles of the rendering library. *)
Record PdfDocument : Type := mkPdfDocument { documentId : nat; numPages : nat }.
Record PdfPage : Type := mkPdfPage { pageOf : nat; pageNumber : nat }.

(** The answers of the browser and of the rendering library during one
    invocation of [convertPdfToImage]. [new File(...)], [Date.now()] and
    [URL.createObjectURL(blob)] complete normally. *)
Record Env : Type := mkEnv {
  hasWindow : bool;                 (* typeof window !== "undefined" *)
  hasDocument : bool;               (* typeof document !== "undefined" *)
  workerUrl : string;               (* new URL('pdfjs-dist/build/pdf.worker.min.mjs', import.meta.url).toString() *)
  importSettles : Completion PdfJs; (* how a pending import("pdfjs-dist/build/pdf.mjs") settles *)
  arrayBuffer : File.t -> Completion (list Byte.byte);                (* await file.arrayBuffer() *)
  getDocument : PdfJs -> list Byte.byte -> Z -> Completion PdfDocument; (* await lib.getDocument({data, verbosity}).promise *)
  getPage : PdfDocument -> nat -> Completion PdfPage;                 (* await pdf.getPage(n) *)
  getViewport : PdfPage -> Q -> Completion Viewport;                  (* page.getViewport({ scale }) *)
  getContext2d : bool;                                                (* canvas.getContext("2d") is not null *)
  render : PdfPage -> Canvas -> Viewport -> Completion unit;          (* await page.render({canvasContext, viewport}).promise *)
  toBlob : Canvas -> string -> Q -> Completion (option Blob.t);       (* canvas.toBlob(cb, type, quality): the blob handed to cb *)
  createObjectURL : Blob.t -> string;                                 (* URL.createObjectURL(blob) *)
  now : Z                                                             (* Date.now() *)
}.

(** The interactions with the outside that a run performs, in order. *)
Inductive Effect : Type :=
| CalledLoadPdfJs
| ReadArrayBuffer
| CalledGetDocument
| CalledGetPage
| CalledGetViewport
| CreatedCanvas
| CalledRender
| CalledToBlob
| CreatedObjectURL.

Record World : Type := mkWorld {
  loader : Loader.State;
  effects : list Effect
}.

Definition logged (eff : Effect) (w : World) : World :=
  {| loader := loader w; effects := (effects w ++ [eff])%list |}.

(** Computations that read and write the world and may throw. *)
Definition M (A : Type) : Type := World -> Completion A * World.

Definition ret {A : Type} (a : A) : M A := fun w => (Normal a, w).

Definition throw {A : Type} (e : Thrown) : M A := fun w => (Throw e, w).

Definition bind {A B : Type} (m : M A) (k : A -> M B) : M B :=
  fun w =>
    match m w with
    | (Normal a, w') => k a w'
    | (Throw e, w') => (Throw e, w')
    end.

(** [try { body } catch (err) { handler }] *)
Definition tryCatch {A : Type} (body : M A) (handler : Thrown -> M A) : M A :=
  fun w =>
    match body w with
    | (Normal a, w') => (Normal a, w')
    | (Throw e, w') => handler e w'
    end.

(** An interaction whose completion the environment decides. *)
Definition perform {A : Type} (eff : Effect) (c : Completion A) : M A :=
  fun w => (c, logged eff w).

Declare Scope js_scope.
Delimit Scope js_scope with js.
Notation "'let*' x ':=' m 'in' k" := (bind m (fun x => k))
  (at level 10, x name, m at level 100, k at level 200) : js_scope.

(** [await loadPdfJs()]: the call, then the settlement of what it returned.
    A promise that is still pending is settled by the environment, which
    runs (or skips) the [.then] callback of [loadPdfJs]. An index outside
    the heap is not produced by [Loader.loadPdfJs] on states reachable from
    [Loader.init]; it is treated like a pending promise. *)
Definition awaitLoadPdfJs (env : Env) : M PdfJs :=
  fun w =>
    let (r, s) := Loader.loadPdfJs (loader w) in
    let log := (effects w ++ [CalledLoadPdfJs])%list in
    match r with
    | Loader.Handle lib => (Normal lib, {| loader := s; effects := log |})
    | Loader.InFlight p =>
        match Loader.promises s !! p with
        | Some (Loader.Fulfilled lib) => (Normal lib, {| loader := s; effects := log |})
        | Some (Loader.Rejected e) => (Throw e, {| loader := s; effects := log |})
        | _ =>
            match importSettles env with
            | Normal lib =>
                (Normal (Loader.configure (workerUrl env) lib),
                 {| loader := Loader.resolveImport (workerUrl env) p lib s; effects := log |})
            | Throw e =>
                (Throw e, {| loader := Loader.rejectImport p e s; effects := log |})
            end
        end
    end.

(* ===================================================================== *)
(** ** [convertPdfToImage]                                                *)
(* ===================================================================== *)

Definition contextError : string := "PDF conversion only works in the browser.".
Definition formatError : string := "File must be a PDF document.".
Definition sizeError : string := "PDF file is too large. Maximum size is 50MB.".
Definition blobError : string := "Failed to create image blob from PDF".
Definition invalidPdfText : string :=
  "The uploaded file appears to be corrupted or is not a valid PDF.".
Definition passwordText : string := "Password-protected PDFs are not supported.".
Definition workerText : string :=
  "PDF processing worker failed to load. Please try again.".

(** [{ imageUrl: "", file: null, error: msg }] *)
Definition failure (msg : string) : PdfConversionResult :=
  {| imageUrl := ""; file := None; error := Some msg |}.

(** [const maxSize = 50 * 1024 * 1024] *)
Definition maxSize : Z := 50 * 1024 * 1024.

(** [const scale = 2.0] *)
Definition scale : Q := 2.

(** The third argument of [canvas.toBlob]. *)
Definition quality : Q := 9 # 10.

(** The name of the output file:
    [`${file.name.replace(/\.pdf$/i, "")}.png`] *)
Definition imageName (name : string) : string :=
  let originalName := JsString.replaceAtEndCI ".pdf" "" name in
  originalName ++ ".png".

(** The [catch (err)] block up to its [return]: the message, then the
    substring tests in the order of the source. *)
Definition classify (err : Thrown) : string :=
  let errorMessage := "Failed to convert PDF" in
  let errorMessage :=
    match err with
    | ErrorInstance message => message       (* errorMessage = err.message *)
    | OtherValue asString => asString        (* errorMessage = String(err) *)
    end in
  if JsString.includes errorMessage "Invalid PDF" then invalidPdfText
  else if JsString.includes errorMessage "password" then passwordText
  else if JsString.includes errorMessage "worker" then workerText
  else errorMessage.

(** The canvas sized to the viewport, smoothing switched on at high
    quality. *)
Definition canvasOf (viewport : Viewport) : Canvas :=
  {| canvasWidth := width viewport;
     canvasHeight := height viewport;
     imageSmoothingEnabled := true;
     imageSmoothingQuality := "high" |}.

(** The file packaged around the encoded image. *)
Definition imageFileOf (env : Env) (f : File.t) (blob : Blob.t) : File.t :=
  {| File.name := imageName (File.name f);
     File.type := "image/png";
     File.size := Blob.size blob;
     File.content := Blob.content blob;
     File.lastModified := now env |}.

(** The body of the [try] block. *)
Definition conversionBody (env : Env) (f : File.t) : M PdfConversionResult :=
  (let* lib := awaitLoadPdfJs env in
   let* buffer := perform ReadArrayBuffer (arrayBuffer env f) in
   let* pdf := perform CalledGetDocument (getDocument env lib buffer 0) in
   let* page := perform CalledGetPage (getPage env pdf 1%nat) in
   let* viewport := perform CalledGetViewport (getViewport env page scale) in
   let* context := perform CreatedCanvas (Normal (getContext2d env)) in
   if negb context then throw (ErrorInstance "Could not get 2D canvas context")
   else
     let canvas := canvasOf viewport in
     let* _ := perform CalledRender (render env page canvas viewport) in
     let* blob := perform CalledToBlob (toBlob env canvas "image/png" quality) in
     match blob with
     | None => ret (failure blobError)
     | Some blob =>
         let imageFile := imageFileOf env f blob in
         let* url := perform CreatedObjectURL (Normal (createObjectURL env blob)) in
         ret {| imageUrl := url; file := Some imageFile; error := None |}
     end)%js.

(** The [catch (err)] block. *)
Definition recover (err : Thrown) : M PdfConversionResult :=
  ret (failure (classify err)).

(** [export async function convertPdfToImage(file: File)] *)
Definition convertPdfToImage (env : Env) (f : File.t) : M PdfConversionResult :=
  if negb (hasWindow env) || negb (hasDocument env) then
    ret (failure contextError)
  else if negb (JsString.includes (File.type f) "pdf")
          && negb (JsString.endsWith (JsString.toLowerCase (File.name f)) ".pdf") then
    ret (failure formatError)
  else if (File.size f >? maxSize)%Z then
    ret (failure sizeError)
  else
    tryCatch (conversionBody env f) recover.

(** Conversions run one after the other in the same process, each with the
    answers of its own environment. *)
Fixpoint convertAll (calls : list (Env * File.t)) (w : World)
  : list (Completion PdfConversionResult) * World :=
  match calls with
  | [] => ([], w)
  | (env, f) :: rest =>
      let (r, w') := convertPdfToImage env f w in
      let (rs, w'') := convertAll rest w' in
      (r :: rs, w'')
  end.

Definition initialWorld : World := {| loader := Loader.init; effects := [] |}.

(* ===================================================================== *)
(** ** The validation rules as the specification lists them              *)
(* ===================================================================== *)

(** The three rules of the input validator, in the order of the
    specification; compared below with the chain of [if]s of the source. *)
Inductive Rule : Type := BrowserContext | PdfFormat | SizeLimit.

Definition rulesInOrder : list Rule := [BrowserContext; PdfFormat; SizeLimit].

Definition ruleFails (env : Env) (f : File.t) (r : Rule) : bool :=
  match r with
  | BrowserContext => negb (hasWindow env && hasDocument env)
  | PdfFormat =>
      negb (JsString.includes (File.type f) "pdf"
            || JsString.endsWith (JsString.toLowerCase (File.name f)) ".pdf")
  | SizeLimit => negb (File.size f <=? 50 * 1024 * 1024)%Z
  end.

Definition ruleMessage (r : Rule) : string :=
  match r with
  | BrowserContext => contextError
  | PdfFormat => formatError
  | SizeLimit => sizeError
  end.

(** First match wins. *)
Definition firstFailing (env : Env) (f : File.t) : option Rule :=
  List.find (ruleFails env f) rulesInOrder.

(** The output name as the specification words it: the input name with its
    [.pdf] suffix (any case) replaced by [.png], that is
    [name.replace(/\.pdf$/i, ".png")]. *)
Definition suffixReplaced (name : string) : string :=
  JsString.replaceAtEndCI ".pdf" ".png" name.

(** The three user-facing categories of the error classifier and the
    substring each one is recognised by, in the precedence of the
    specification. *)
Definition categories : list (string * string) :=
  [("Invalid PDF", invalidPdfText); ("password", passwordText); ("worker", workerText)].

(** The text of the first category whose substring occurs in the message,
    the message itself when none does. *)
Definition firstCategory (message : string) : string :=
  match List.find (fun c => JsString.includes message (fst c)) categories with
  | Some c => snd c
  | None => message
  end.

(** The message the classifier works on. *)
Definition underlyingMessage (err : Thrown) : string :=
  match err with
  | ErrorInstance message => message
  | OtherValue asString => asString
  end.

(* ===================================================================== *)
(** ** The file uploader (app/Components/FileUploader.tsx)               *)
(* ===================================================================== *)

Module FileUploader.

(** [const maxFileSize = 20 * 1024 * 1024] *)
Definition maxFileSize : Z := 20 * 1024 * 1024.

(** The options object passed to [useDropzone]. *)
Record DropzoneOptions : Type := mkOptions {
  multiple : bool;
  accept : list (string * list string);
  maxSize : Z;
  noClick : bool;
  noKeyboard : bool
}.

Definition options : DropzoneOptions :=
  {| multiple := false;
     accept := [("application/pdf", [".pdf"])];
     maxSize := maxFileSize;
     noClick := false;
     noKeyboard := false |}.

(** The component: its [file] state and the calls made to the
    [onFileSelect] prop, oldest first. *)
Record Component : Type := mkComponent {
  file : option File.t;
  selections : list (option File.t)
}.

Definition mounted : Component := {| file := None; selections := [] |}.

(** [onDrop]: [acceptedFiles[0] || null] becomes the state and is handed
    to [onFileSelect]. *)
Definition onDrop (acceptedFiles : list File.t) (c : Component) : Component :=
  let selectedFile := head acceptedFiles in
  {| file := selectedFile;
     selections := (selections c ++ [selectedFile])%list |}.

(** [removeFile] *)
Definition removeFile (c : Component) : Component :=
  {| file := None; selections := (selections c ++ [None])%list |}.

Section Dropzone.

(** react-dropzone is a dependency of the repository: given the options
    and the files of a drop, it decides which files [onDrop] receives. *)
Variable useDropzone : DropzoneOptions -> list File.t -> list File.t.

(** A drop on the component. *)
Definition drop (dropped : list File.t) (c : Component) : Component :=
  onDrop (useDropzone options dropped) c.

(** The file the upload form holds after a drop, which
    [handleAnalyze] passes to [convertPdfToImage]. *)
Definition selected (dropped : list File.t) (c : Component) : option File.t :=
  file (drop dropped c).

End Dropzone.

(** The documented contract of the [maxSize] option: no file larger than
    [maxSize] bytes is accepted. *)
Definition RespectsMaxSize (useDropzone : DropzoneOptions -> list File.t -> list File.t) : Prop :=
  forall opts dropped f,
    In f (useDropzone opts dropped) -> (File.size f <= maxSize opts)%Z.

(** One instance of the contract, after the documentation of
    react-dropzone: a file is accepted when its type or its extension is
    listed in [accept] and its size does not exceed [maxSize]; with
    [multiple: false] a drop with more than one acceptable file is
    rejected as a whole. *)
Definition fileAccepted (opts : DropzoneOptions) (f : File.t) : bool :=
  existsb (fun entry =>
             String.eqb (File.type f) (fst entry)
             || existsb (JsString.endsWith (JsString.toLowerCase (File.name f))) (snd entry))
          (accept opts).

Definition fileMatchSize (opts : DropzoneOptions) (f : File.t) : bool :=
  negb (File.size f >? maxSize opts)%Z.

Definition reactDropzone (opts : DropzoneOptions) (dropped : list File.t) : list File.t :=
  let acceptedFiles :=
    List.filter (fun f => fileAccepted opts f && fileMatchSize opts f) dropped in
  if negb (multiple opts) && (1 <? length acceptedFiles)%nat then []
  else acceptedFiles.

End FileUploader.

(* ===================================================================== *)
(** ** The statements of the specification                               *)
(* ===================================================================== *)

(** A result as the data model describes it: an image and no error, or no
    image and an error that says something. *)
Definition ExactlyOne (r : PdfConversionResult) : Prop :=
  (file r <> None /\ error r = None)
  \/ (file r = None /\ exists msg, error r = Some msg /\ msg <> "").

(** Every step of the pipeline succeeds on [f] and the encoder delivers
    [blob]. *)
Definition RendersTo (env : Env) (f : File.t) (w : World) (blob : Blob.t) : Prop :=
  exists lib w1 buffer pdf page viewport,
    awaitLoadPdfJs env w = (Normal lib, w1)
    /\ arrayBuffer env f = Normal buffer
    /\ getDocument env lib buffer 0 = Normal pdf
    /\ getPage env pdf 1%nat = Normal page
    /\ getViewport env page scale = Normal viewport
    /\ getContext2d env = true
    /\ render env page (canvasOf viewport) viewport = Normal tt
    /\ toBlob env (canvasOf viewport) "image/png" quality = Normal (Some blob).

(** The classifier as the specification words it: the raw message goes
    through the categories, and the default text stands in when there is no
    message to show. *)
Definition classifierAsSpecified (err : Thrown) : string :=
  if String.eqb (underlyingMessage err) "" then "Failed to convert PDF"
  else firstCategory (underlyingMessage err).

(** What the converter does once the format rule has let the file
    through: the size rule, then the conversion. *)
Definition afterFormatRule (env : Env) (f : File.t) : M PdfConversionResult :=
  if (File.size f >? maxSize)%Z then ret (failure sizeError)
  else tryCatch (conversionBody env f) recover.

(* ===================================================================== *)
(** ** Sample inputs                                                      *)
(* ===================================================================== *)

Definition pdfBytes : list Byte.byte := [Byte.x25; Byte.x50; Byte.x44; Byte.x46].

Definition resumePdf : File.t :=
  {| File.name := "Resume.PDF"; File.type := "application/pdf";
     File.size := 4; File.content := pdfBytes; File.lastModified := 0 |}.

Definition pngBlob : Blob.t :=
  {| Blob.size := 2; Blob.type := "image/png"; Blob.content := [Byte.x89; Byte.x50] |}.

(** A browser in which every step succeeds. *)
Definition browser : Env :=
  {| hasWindow := true;
     hasDocument := true;
     workerUrl := "/assets/pdf.worker.min.mjs";
     importSettles := Normal {| moduleId := 1; workerSrc := "" |};
     arrayBuffer := fun f => Normal (File.content f);
     getDocument := fun _ _ _ => Normal {| documentId := 1; numPages := 1 |};
     getPage := fun pdf n => Normal {| pageOf := documentId pdf; pageNumber := n |};
     getViewport := fun _ s => Normal {| width := 612 * s; height := 792 * s |};
     getContext2d := true;
     render := fun _ _ _ => Normal tt;
     toBlob := fun _ _ _ => Normal (Some pngBlob);
     createObjectURL := fun _ => "blob:resumate/0";
     now := 1700000000000 |}.

(** A PDF whose name carries no extension. *)
Definition resumeNoExtension : File.t :=
  {| File.name := "resume"; File.type := "application/pdf";
     File.size := 4; File.content := pdfBytes; File.lastModified := 0 |}.

(** More than 50 MiB of plain text. *)
Definition bigTextFile : File.t :=
  {| File.name := "notes.txt"; File.type := "text/plain";
     File.size := 50 * 1024 * 1024 + 1; File.content := []; File.lastModified := 0 |}.

(** More than 50 MiB of PDF. *)
Definition bigPdf : File.t :=
  {| File.name := "thesis.pdf"; File.type := "application/pdf";
     File.size := 50 * 1024 * 1024 + 1; File.content := pdfBytes; File.lastModified := 0 |}.

(** An upper-case media type and a name without the suffix. *)
Definition upperCaseType : File.t :=
  {| File.name := "cv.doc"; File.type := "application/PDF";
     File.size := 4; File.content := pdfBytes; File.lastModified := 0 |}.

(** A media type that merely contains the letters. *)
Definition pdfishText : File.t :=
  {| File.name := "notes.txt"; File.type := "text/pdfish";
     File.size := 4; File.content := []; File.lastModified := 0 |}.

(** The same browser with a document parser that fails with [e]. *)
Definition parseFailsWith (e : Thrown) : Env :=
  {| hasWindow := true;
     hasDocument := true;
     workerUrl := workerUrl browser;
     importSettles := importSettles browser;
     arrayBuffer := arrayBuffer browser;
     getDocument := fun _ _ _ => Throw e;
     getPage := getPage browser;
     getViewport := getViewport browser;
     getContext2d := true;
     render := render browser;
     toBlob := toBlob browser;
     createObjectURL := createObjectURL browser;
     now := now browser |}.

(** The same browser with a network on which the import fails with [e]. *)
Definition importFailsWith (e : Thrown) : Env :=
  {| hasWindow := true;
     hasDocument := true;
     workerUrl := workerUrl browser;
     importSettles := Throw e;
     arrayBuffer := arrayBuffer browser;
     getDocument := getDocument browser;
     getPage := getPage browser;
     getViewport := getViewport browser;
     getContext2d := true;
     render := render browser;
     toBlob := toBlob browser;
     createObjectURL := createObjectURL browser;
     now := now browser |}.

Definition fetchFailed : Thrown :=
  ErrorInstance "Failed to fetch dynamically imported module".

(** A first call whose import is then rejected. *)
Definition callThenFailure : list Loader.Event :=
  [Loader.Call; Loader.ImportRejects 0 fetchFailed].

(** A server-side run: neither [window] nor [document]. *)
Definition server : Env :=
  {| hasWindow := false;
     hasDocument := false;
     workerUrl := workerUrl browser;
     importSettles := importSettles browser;
     arrayBuffer := arrayBuffer browser;
     getDocument := getDocument browser;
     getPage := getPage browser;
     getViewport := getViewport browser;
     getContext2d := false;
     render := render browser;
     toBlob := toBlob browser;
     createObjectURL := createObjectURL browser;
     now := now browser |}.

(* ===================================================================== *)
(** ** The size label of the uploader ([formatSize])                     *)
(* ===================================================================== *)

(** The decimal digits of an integer, as [String(n)] prints them. *)
Definition decimal (z : Z) : string := NilZero.string_of_int (Z.to_int z).

(** [(num / den).toFixed(1)] for [num >= 0] and [den] a power of two below
    [2^53]: the quotient of two such integers is computed without rounding,
    and [toFixed(1)] prints the integer [n] for which [n / 10] is closest to
    it, the larger one on a tie, as its digits but the last, a point, and
    the last digit. *)
Definition toFixed1 (num den : Z) : string :=
  let n := ((20 * num + den) / (2 * den))%Z in
  decimal (n / 10) ++ "." ++ decimal (n mod 10).

(** [const formatSize = (bytes: number) => ...] *)
Definition formatSize (bytes : Z) : string :=
  if (bytes >=? 1024 * 1024)%Z then toFixed1 bytes (1024 * 1024) ++ "MB"
  else if (bytes >=? 1024)%Z then toFixed1 bytes 1024 ++ "KB"
  else decimal bytes ++ " bytes".

(* ===================================================================== *)
(** ** Strings of the upload form                                        *)
(* ===================================================================== *)

(** The text of a form field, as UTF-16 code units: [trim] depends on
    characters outside ASCII. *)
Definition Str16 : Type := list N.

(** The code units [trim] strips: WhiteSpace and LineTerminator of
    ECMAScript (TAB, LF, VT, FF, CR, SP, NBSP, the space separators
    U+1680, U+2000..U+200A, U+202F, U+205F, U+3000, the separators U+2028
    and U+2029, and U+FEFF). *)
Definition isWhiteSpace (c : N) : bool :=
  ((9 <=? c) && (c <=? 13) || (c =? 32) || (c =? 160) || (c =? 5760)
   || (8192 <=? c) && (c <=? 8202) || (c =? 8232) || (c =? 8233)
   || (c =? 8239) || (c =? 8287) || (c =? 12288) || (c =? 65279))%N.

Fixpoint trimStart (s : Str16) : Str16 :=
  match s with
  | [] => []
  | c :: s' => if isWhiteSpace c then trimStart s' else s
  end.

Fixpoint trimEnd (s : Str16) : Str16 :=
  match s with
  | [] => []
  | c :: s' =>
      match trimEnd s' with
      | [] => if isWhiteSpace c then [] else [c]
      | rest => c :: rest
      end
  end.

(** [s.trim()] *)
Definition trim (s : Str16) : Str16 := trimEnd (trimStart s).

(** [!s]: the empty string is the only falsy string. *)
Definition isEmpty (s : Str16) : bool :=
  match s with
  | [] => true
  | _ => false
  end.

(** A string is truthy when it is not empty. *)
Definition truthy (s : string) : bool := negb (String.eqb s "").

(** The truth value of an optional string: [undefined], [null] and the
    empty string are falsy. *)
Definition truthyOpt (value : option string) : bool :=
  match value with
  | Some s => truthy s
  | None => false
  end.

(** [value || fallback] for an optional string. *)
Definition orElse (value : option string) (fallback : string) : string :=
  match value with
  | Some s => if truthy s then s else fallback
  | None => fallback
  end.

(* ===================================================================== *)
(** ** Values exchanged with the storage, key-value and AI services      *)
(* ===================================================================== *)

(** What [JSON.parse] produces. *)
#[local] Set Warnings "-register-all".
Inductive Json : Type :=
| JNull
| JBool (b : bool)
| JNumber (q : Q)
| JString (s : string)
| JArray (items : list Json)
| JObject (fields : list (string * Json)).

(** [!!value] *)
Definition truthyJson (j : Json) : bool :=
  match j with
  | JNull => false
  | JBool b => b
  | JNumber q => negb (Qnum q =? 0)%Z
  | JString s => truthy s
  | JArray _ => true
  | JObject _ => true
  end.

Module Puter.

(** The item [fs.upload] resolves with. *)
Record FSItem : Type := mkFSItem { path : string }.

(** [feedback.message.content]: a string, or an array whose elements carry
    a [text]. *)
Inductive Content : Type :=
| Text (s : string)
| Parts (texts : list string).

Record AIResponse : Type := mkAIResponse { content : Content }.

(** The [data] object of [handleAnalyze]. *)
Record ResumeRecord : Type := mkRecord {
  id : string;
  resumePath : string;
  imagePath : string;
  companyName : Str16;
  jobTitle : Str16;
  jobDescription : Str16;
  feedback : Json
}.

Definition withFeedback (data : ResumeRecord) (j : Json) : ResumeRecord :=
  {| id := id data; resumePath := resumePath data; imagePath := imagePath data;
     companyName := companyName data; jobTitle := jobTitle data;
     jobDescription := jobDescription data; feedback := j |}.

(** The collaborators of the upload page, none of which is part of the
    repository: the store of [usePuterStore], [generateUUID],
    [prepareInstructions], [JSON] and the engine's message for reading a
    property of [undefined]. [upload] and [kvSet] are indexed by the number
    of earlier calls of the same run. *)
Record Services : Type := mkServices {
  pdf : Env;
  upload : nat -> list File.t -> Completion (option FSItem);   (* await fs.upload(files) *)
  kvSet : nat -> string -> string -> Completion unit;          (* await kv.set(key, value) *)
  aiFeedback : string -> string -> Completion (option AIResponse); (* await ai.feedback(path, instructions) *)
  generateUUID : string;
  prepareInstructions : Str16 -> Str16 -> string;
  stringify : ResumeRecord -> string;                          (* JSON.stringify(data) *)
  parse : string -> Completion Json;                           (* JSON.parse(text) *)
  typeErrorMessage : string
}.

(** The calls a run makes on the services and on the router, in order. *)
Inductive Call : Type :=
| FsUpload (files : list File.t)
| KvSet (key value : string)
| AiFeedback (path instructions : string)
| Navigate (to : string)
| NavigateAfter (ms : Z) (to : string).

End Puter.

(* ===================================================================== *)
(** ** A state and exception monad for the pages                         *)
(* ===================================================================== *)

Module Flow.

Definition t (S A : Type) : Type := S -> Completion A * S.

Definition ret {S A : Type} (a : A) : t S A := fun s => (Normal a, s).

Definition throw {S A : Type} (e : Thrown) : t S A := fun s => (Throw e, s).

Definition bind {S A B : Type} (m : t S A) (k : A -> t S B) : t S B :=
  fun s =>
    match m s with
    | (Normal a, s') => k a s'
    | (Throw e, s') => (Throw e, s')
    end.

(** [try { body } catch (error) { handler }] *)
Definition tryCatch {S A : Type} (body : t S A) (handler : Thrown -> t S A) : t S A :=
  fun s =>
    match body s with
    | (Normal a, s') => (Normal a, s')
    | (Throw e, s') => handler e s'
    end.

(** [try { body } finally { finalizer }] for a finalizer that only writes
    state. *)
Definition tryFinally {S A : Type} (body : t S A) (finalizer : S -> S) : t S A :=
  fun s => let (c, s') := body s in (c, finalizer s').

Definition update {S : Type} (f : S -> S) : t S unit := fun s => (Normal tt, f s).

End Flow.

Declare Scope flow_scope.
Delimit Scope flow_scope with flow.
Notation "'let*' x ':=' m 'in' k" := (Flow.bind m (fun x => k))
  (at level 10, x name, m at level 100, k at level 200) : flow_scope.
Notation "'do' m 'then' k" := (Flow.bind m (fun _ => k))
  (at level 10, m at level 100, k at level 200) : flow_scope.

(* ===================================================================== *)
(** ** The upload page                                                    *)
(* ===================================================================== *)

(** The state of the page ([useState]), the world of the converter and the
    calls made so far. *)
Module Page.
Record t : Type := mk {
  isProcessing : bool;
  statusText : string;
  errorText : string;
  file : option File.t;
  world : World;
  calls : list Puter.Call
}.

Definition initial : t :=
  {| isProcessing := false; statusText := ""; errorText := ""; file := None;
     world := initialWorld; calls := [] |}.
End Page.

Definition setIsProcessing (b : bool) : Flow.t Page.t unit :=
  Flow.update (fun s =>
    {| Page.isProcessing := b; Page.statusText := Page.statusText s;
       Page.errorText := Page.errorText s; Page.file := Page.file s;
       Page.world := Page.world s; Page.calls := Page.calls s |}).

Definition setStatusText (text : string) : Flow.t Page.t unit :=
  Flow.update (fun s =>
    {| Page.isProcessing := Page.isProcessing s; Page.statusText := text;
       Page.errorText := Page.errorText s; Page.file := Page.file s;
       Page.world := Page.world s; Page.calls := Page.calls s |}).

Definition setErrorText (text : string) : Flow.t Page.t unit :=
  Flow.update (fun s =>
    {| Page.isProcessing := Page.isProcessing s; Page.statusText := Page.statusText s;
       Page.errorText := text; Page.file := Page.file s;
       Page.world := Page.world s; Page.calls := Page.calls s |}).

Definition setFile (f : option File.t) : Flow.t Page.t unit :=
  Flow.update (fun s =>
    {| Page.isProcessing := Page.isProcessing s; Page.statusText := Page.statusText s;
       Page.errorText := Page.errorText s; Page.file := f;
       Page.world := Page.world s; Page.calls := Page.calls s |}).

(** A call on a service: it is recorded, and completes as the service
    decides. *)
Definition call {A : Type} (c : Puter.Call) (outcome : Completion A) : Flow.t Page.t A :=
  fun s =>
    (outcome,
     {| Page.isProcessing := Page.isProcessing s; Page.statusText := Page.statusText s;
        Page.errorText := Page.errorText s; Page.file := Page.file s;
        Page.world := Page.world s; Page.calls := (Page.calls s ++ [c])%list |}).

(** [await convertPdfToImage(file)], run in the world of the page. *)
Definition awaitConvert (env : Env) (f : File.t) : Flow.t Page.t PdfConversionResult :=
  fun s =>
    let (c, w) := convertPdfToImage env f (Page.world s) in
    (c,
     {| Page.isProcessing := Page.isProcessing s; Page.statusText := Page.statusText s;
        Page.errorText := Page.errorText s; Page.file := Page.file s;
        Page.world := w; Page.calls := Page.calls s |}).

(** [const handleFileSelect = (file) => { setFile(file); setErrorText('') }] *)
Definition handleFileSelect (f : option File.t) : Flow.t Page.t unit :=
  (do setFile f then setErrorText "")%flow.

(** [typeof content === 'string' ? content : content[0].text] *)
Definition feedbackTextOf (sv : Puter.Services) (r : Puter.AIResponse) : Flow.t Page.t string :=
  match Puter.content r with
  | Puter.Text s => Flow.ret s
  | Puter.Parts (first :: _) => Flow.ret first
  | Puter.Parts [] => Flow.throw (ErrorInstance (Puter.typeErrorMessage sv))
  end.

(** The [catch (error)] block of [handleAnalyze], the same in both
    versions of the page. *)
Definition analysisFailed (error : Thrown) : Flow.t Page.t unit :=
  let errorMessage :=
    match error with
    | ErrorInstance message => message
    | OtherValue _ => "Unknown error occurred"
    end in
  (do setErrorText errorMessage then setStatusText "")%flow.

(** The fields of the form as [FormData] returns them. *)
Record Form : Type := mkForm {
  formCompanyName : Str16;
  formJobTitle : Str16;
  formJobDescription : Str16
}.

(** The argument of [handleAnalyze]. *)
Record Submission : Type := mkSubmission {
  companyName : Str16;
  jobTitle : Str16;
  jobDescription : Str16;
  submittedFile : File.t
}.

(** [handleSubmit], up to the call of [handleAnalyze]: the error it shows,
    or the submission it hands on. [form] is [None] when
    [e.currentTarget.closest('form')] finds nothing. The two versions of
    the page agree on this function. *)
Definition handleSubmit (form : option Form) (s : Page.t) : Page.t * option Submission :=
  match form with
  | None => (s, None)
  | Some form =>
      if isEmpty (trim (formCompanyName form)) then
        (snd (setErrorText "Company name is required" s), None)
      else if isEmpty (trim (formJobTitle form)) then
        (snd (setErrorText "Job title is required" s), None)
      else if isEmpty (trim (formJobDescription form)) then
        (snd (setErrorText "Job description is required" s), None)
      else
        match Page.file s with
        | None => (snd (setErrorText "Please upload a PDF resume" s), None)
        | Some f =>
            (s, Some {| companyName := formCompanyName form;
                        jobTitle := formJobTitle form;
                        jobDescription := formJobDescription form;
                        submittedFile := f |})
        end
  end.

(** The upload page of app/Components/FileUploader.tsx, lines 85 to 294. *)
Module Upload.

(** The [try] block of [handleAnalyze]. *)
Definition analysis (sv : Puter.Services) (a : Submission) : Flow.t Page.t unit :=
  (do setStatusText "Uploading the file..." then
   let* uploadedFile :=
     call (Puter.FsUpload [submittedFile a]) (Puter.upload sv 0 [submittedFile a]) in
   match uploadedFile with
   | None => Flow.throw (ErrorInstance "Failed to upload file")
   | Some uploadedFile =>
   do setStatusText "Converting PDF to image..." then
   let* imageResult := awaitConvert (Puter.pdf sv) (submittedFile a) in
   (* if (imageResult.error || !imageResult.file) throw ... *)
   match truthyOpt (error imageResult), file imageResult with
   | false, Some image =>
   do setStatusText "Uploading the converted image..." then
   let* uploadedImage := call (Puter.FsUpload [image]) (Puter.upload sv 1 [image]) in
   match uploadedImage with
   | None => Flow.throw (ErrorInstance "Failed to upload converted image")
   | Some uploadedImage =>
   do setStatusText "Preparing data for analysis..." then
   let uuid := Puter.generateUUID sv in
   let data :=
     {| Puter.id := uuid;
        Puter.resumePath := Puter.path uploadedFile;
        Puter.imagePath := Puter.path uploadedImage;
        Puter.companyName := companyName a;
        Puter.jobTitle := jobTitle a;
        Puter.jobDescription := jobDescription a;
        Puter.feedback := JString "" |} in
   let key := "resume:" ++ uuid in
   do call (Puter.KvSet key (Puter.stringify sv data))
           (Puter.kvSet sv 0 key (Puter.stringify sv data)) then
   do setStatusText "Analyzing your resume with AI..." then
   let instructions := Puter.prepareInstructions sv (jobTitle a) (jobDescription a) in
   let* feedback :=
     call (Puter.AiFeedback (Puter.path uploadedFile) instructions)
          (Puter.aiFeedback sv (Puter.path uploadedFile) instructions) in
   match feedback with
   | None => Flow.throw (ErrorInstance "Failed to analyze resume - AI service unavailable")
   | Some feedback =>
   let* feedbackText := feedbackTextOf sv feedback in
   let* data :=
     Flow.tryCatch
       (let* parsed := fun s => (Puter.parse sv feedbackText, s) in
        Flow.ret (Puter.withFeedback data parsed))
       (fun parseError =>
          Flow.ret (Puter.withFeedback data
                      (JObject [("error", JString "Failed to parse AI feedback");
                                ("rawFeedback", JString feedbackText)]))) in
   do call (Puter.KvSet key (Puter.stringify sv data))
           (Puter.kvSet sv 1 key (Puter.stringify sv data)) then
   do setStatusText "Analysis complete! Redirecting..." then
   call (Puter.Navigate ("/resume/" ++ uuid)) (Normal tt)
   end end
   | _, _ =>
       Flow.throw (ErrorInstance (orElse (error imageResult) "Failed to convert PDF to image"))
   end end)%flow.

(** [const handleAnalyze = async ({ companyName, jobTitle, jobDescription, file }) => ...] *)
Definition handleAnalyze (sv : Puter.Services) (a : Submission) : Flow.t Page.t unit :=
  (do setIsProcessing true then
   do setErrorText "" then
   Flow.tryFinally
     (Flow.tryCatch (analysis sv a) analysisFailed)
     (fun s => snd (setIsProcessing false s)))%flow.

(** A click on the submit button: [handleSubmit], and the analysis it
    starts. *)
Definition submit (sv : Puter.Services) (form : option Form) (s : Page.t) : Page.t :=
  match handleSubmit form s with
  | (s', None) => s'
  | (s', Some a) => snd (handleAnalyze sv a s')
  end.

End Upload.

(** The upload page of src/unnamed/part_001. *)
Module UploadB.

(** The [try] block of [handleAnalyze]. *)
Definition analysis (sv : Puter.Services) (a : Submission) : Flow.t Page.t unit :=
  (do setStatusText "Uploading the file..." then
   let* uploadedFile :=
     call (Puter.FsUpload [submittedFile a]) (Puter.upload sv 0 [submittedFile a]) in
   match uploadedFile with
   | None => Flow.throw (ErrorInstance "Failed to upload file")
   | Some uploadedFile =>
   do setStatusText "Converting to image..." then
   let* imageFile := awaitConvert (Puter.pdf sv) (submittedFile a) in
   (* if (!imageFile.file) throw ... *)
   match file imageFile with
   | None => Flow.throw (ErrorInstance "Failed to convert PDF to image")
   | Some image =>
   do setStatusText "Uploading the image..." then
   let* uploadedImage := call (Puter.FsUpload [image]) (Puter.upload sv 1 [image]) in
   match uploadedImage with
   | None => Flow.throw (ErrorInstance "Failed to upload image")
   | Some uploadedImage =>
   do setStatusText "Preparing data..." then
   let uuid := Puter.generateUUID sv in
   let data :=
     {| Puter.id := uuid;
        Puter.resumePath := Puter.path uploadedFile;
        Puter.imagePath := Puter.path uploadedImage;
        Puter.companyName := companyName a;
        Puter.jobTitle := jobTitle a;
        Puter.jobDescription := jobDescription a;
        Puter.feedback := JString "" |} in
   let key := "resume:" ++ uuid in
   do call (Puter.KvSet key (Puter.stringify sv data))
           (Puter.kvSet sv 0 key (Puter.stringify sv data)) then
   do setStatusText "Analyzing..." then
   let instructions := Puter.prepareInstructions sv (jobTitle a) (jobDescription a) in
   let* feedback :=
     call (Puter.AiFeedback (Puter.path uploadedFile) instructions)
          (Puter.aiFeedback sv (Puter.path uploadedFile) instructions) in
   match feedback with
   | None => Flow.throw (ErrorInstance "Failed to analyze resume")
   | Some feedback =>
   let* feedbackText := feedbackTextOf sv feedback in
   let* data :=
     Flow.tryCatch
       (let* parsed := fun s => (Puter.parse sv feedbackText, s) in
        Flow.ret (Puter.withFeedback data parsed))
       (fun parseError =>
          Flow.ret (Puter.withFeedback data
                      (JObject [("error", JString "Parse error");
                                ("raw", JString feedbackText)]))) in
   do call (Puter.KvSet key (Puter.stringify sv data))
           (Puter.kvSet sv 1 key (Puter.stringify sv data)) then
   do setStatusText "Analysis complete, redirecting..." then
   (* setTimeout(() => navigate(`/resume/${uuid}`), 1000) *)
   call (Puter.NavigateAfter 1000 ("/resume/" ++ uuid)) (Normal tt)
   end end end end)%flow.

(** [const handleAnalyze = async ({ companyName, jobTitle, jobDescription, file }) => ...] *)
Definition handleAnalyze (sv : Puter.Services) (a : Submission) : Flow.t Page.t unit :=
  (do setIsProcessing true then
   do setErrorText "" then
   Flow.tryFinally
     (Flow.tryCatch (analysis sv a) analysisFailed)
     (fun s => snd (setIsProcessing false s)))%flow.

End UploadB.

(* ===================================================================== *)
(** ** The uploader inside the upload form                                *)
(* ===================================================================== *)

(** What the user does with the uploader. *)
Inductive UploaderEvent : Type :=
| Dropped (files : list File.t)
| RemoveClicked.

Definition uploaderStep
           (useDropzone : FileUploader.DropzoneOptions -> list File.t -> list File.t)
           (c : FileUploader.Component) (ev : UploaderEvent) : FileUploader.Component :=
  match ev with
  | Dropped files => FileUploader.drop useDropzone files c
  | RemoveClicked => FileUploader.removeFile c
  end.

(** The page after the calls the uploader made to its [onFileSelect] prop,
    which the upload page binds to [handleFileSelect]. *)
Definition notified (selections : list (option File.t)) (s : Page.t) : Page.t :=
  fold_left (fun s f => snd (handleFileSelect f s)) selections s.

(* ===================================================================== *)
(** ** The result page ([loadResumeData] and the three views)            *)
(* ===================================================================== *)

Module Resume.

(** The four [useState] cells of the component. *)
Record State : Type := mkState {
  resumeData : Json;           (* ResumeData | null *)
  imageUrl : string;
  loading : bool;
  error : string
}.

Definition initial : State :=
  {| resumeData := JNull; imageUrl := ""; loading := true; error := "" |}.

(** The store, [JSON.parse], [URL.createObjectURL] and the engine's
    message for reading a property of [null]. *)
Record Services : Type := mkServices {
  kvGet : string -> Completion (option string);     (* await kv.get(key): string | null *)
  parse : string -> Completion Json;                (* JSON.parse(data) *)
  fsRead : option Json -> Completion Blob.t;        (* await fs.read(path) *)
  createObjectURL : Blob.t -> Completion string;    (* URL.createObjectURL(blob) *)
  typeErrorMessage : string
}.

Definition setResumeData (j : Json) (s : State) : State :=
  {| resumeData := j; imageUrl := imageUrl s; loading := loading s; error := error s |}.

Definition setImageUrl (u : string) (s : State) : State :=
  {| resumeData := resumeData s; imageUrl := u; loading := loading s; error := error s |}.

Definition setLoading (b : bool) (s : State) : State :=
  {| resumeData := resumeData s; imageUrl := imageUrl s; loading := b; error := error s |}.

Definition setError (e : string) (s : State) : State :=
  {| resumeData := resumeData s; imageUrl := imageUrl s; loading := loading s; error := e |}.

(** [parsedData.imagePath]: the field of an object, [undefined] on any
    other value but [null], on which the read throws. *)
Definition imagePathOf (sv : Services) (parsedData : Json) : Completion (option Json) :=
  match parsedData with
  | JNull => Throw (ErrorInstance (typeErrorMessage sv))
  | JObject fields =>
      Normal (option_map snd
                (List.find (fun kv => String.eqb (fst kv) "imagePath") fields))
  | _ => Normal None
  end.

(** The inner [try] block: the image of the resume. *)
Definition loadImage (sv : Services) (parsedData : Json) : Flow.t State unit :=
  (let* path := fun s => (imagePathOf sv parsedData, s) in
   let* imageBlob := fun s => (fsRead sv path, s) in
   let* imageObjectUrl := fun s => (createObjectURL sv imageBlob, s) in
   Flow.update (setImageUrl imageObjectUrl))%flow.

(** [const loadResumeData = async () => ...] of the effect, for the [id] of
    the route ([None] when the parameter is missing). *)
Definition loadResumeData (sv : Services) (id : option string) : Flow.t State unit :=
  if negb (truthyOpt id) then
    (do Flow.update (setError "No resume ID provided") then
     Flow.update (setLoading false))%flow
  else
    Flow.tryCatch
      (let* data := fun s => (kvGet sv ("resume:" ++ orElse id ""), s) in
       if negb (truthyOpt data) then
         (do Flow.update (setError "Resume analysis not found") then
          Flow.update (setLoading false))%flow
       else
         (let* parsedData := fun s => (parse sv (orElse data ""), s) in
          do Flow.update (setResumeData parsedData) then
          do Flow.tryCatch (loadImage sv parsedData)
                           (fun imgError => Flow.ret tt) then
          Flow.update (setLoading false)))%flow
      (fun err =>
         (do Flow.update (setError "Failed to load resume analysis") then
          Flow.update (setLoading false))%flow).

(** What the component renders. *)
Inductive View : Type :=
| Spinner
| ErrorView (message : string)
| Results (data : Json) (image : string).

(** The three [return]s of the component. *)
Definition render (s : State) : View :=
  if loading s then Spinner
  else if truthy (error s) || negb (truthyJson (resumeData s)) then ErrorView (error s)
  else Results (resumeData s) (imageUrl s).

End Resume.

(* ===================================================================== *)
(** ** Vocabulary for the further properties of the converter            *)
(* ===================================================================== *)

(** The steps of a conversion in the order of the source. *)
Definition pipeline : list Effect :=
  [CalledLoadPdfJs; ReadArrayBuffer; CalledGetDocument; CalledGetPage;
   CalledGetViewport; CreatedCanvas; CalledRender; CalledToBlob; CreatedObjectURL].

(** The library loads, leaving world [w1], and the first page of [f] is
    read, parsed and measured as [viewport]. *)
Definition Measured (env : Env) (f : File.t) (w w1 : World)
           (page : PdfPage) (viewport : Viewport) : Prop :=
  exists lib buffer pdf,
    awaitLoadPdfJs env w = (Normal lib, w1)
    /\ arrayBuffer env f = Normal buffer
    /\ getDocument env lib buffer 0 = Normal pdf
    /\ getPage env pdf 1%nat = Normal page
    /\ getViewport env page scale = Normal viewport.

(** A browser without a 2D canvas context. *)
Definition noCanvasContext : Env :=
  {| hasWindow := true;
     hasDocument := true;
     workerUrl := workerUrl browser;
     importSettles := importSettles browser;
     arrayBuffer := arrayBuffer browser;
     getDocument := getDocument browser;
     getPage := getPage browser;
     getViewport := getViewport browser;
     getContext2d := false;
     render := render browser;
     toBlob := toBlob browser;
     createObjectURL := createObjectURL browser;
     now := now browser |}.

(** A browser whose encoder hands [null] to the callback. *)
Definition noBlob : Env :=
  {| hasWindow := true;
     hasDocument := true;
     workerUrl := workerUrl browser;
     importSettles := importSettles browser;
     arrayBuffer := arrayBuffer browser;
     getDocument := getDocument browser;
     getPage := getPage browser;
     getViewport := getViewport browser;
     getContext2d := true;
     render := render browser;
     toBlob := fun _ _ _ => Normal None;
     createObjectURL := createObjectURL browser;
     now := now browser |}.

(** A PDF of exactly 50 MiB. *)
Definition pdfAtLimit : File.t :=
  {| File.name := "portfolio.pdf"; File.type := "application/pdf";
     File.size := 50 * 1024 * 1024; File.content := pdfBytes; File.lastModified := 0 |}.

(** The state of the loader once the module [lib] is memoized. *)
Definition loadedWith (lib : PdfJs) : Loader.State :=
  {| Loader.pdfjsLib := Some lib; Loader.loadPromise := Some 0%nat;
     Loader.promises := [Loader.Fulfilled lib] |}.

(** The state of the loader once the import has failed with [e]. *)
Definition failedWith (e : Thrown) : Loader.State :=
  {| Loader.pdfjsLib := None; Loader.loadPromise := Some 0%nat;
     Loader.promises := [Loader.Rejected e] |}.

(** A first call whose import then succeeds. *)
Definition callThenSuccess : list Loader.Event :=
  [Loader.Call; Loader.ImportResolves 0 {| moduleId := 7; workerSrc := "" |}].

(** A field has text when one of its code units is not white space. *)
Definition hasText (s : Str16) : bool :=
  existsb (fun c => negb (isWhiteSpace c)) s.

(** The page with [text] as its error. *)
Definition withError (text : string) (s : Page.t) : Page.t :=
  snd (setErrorText text s).



Definition isNavigation (c : Puter.Call) : bool :=
  match c with
  | Puter.Navigate _ | Puter.NavigateAfter _ _ => true
  | _ => false
  end.


(** The record of the first [kv.set]. *)
Definition recordOf (sv : Puter.Services) (a : Submission)
           (uploadedFile uploadedImage : Puter.FSItem) : Puter.ResumeRecord :=
  {| Puter.id := Puter.generateUUID sv;
     Puter.resumePath := Puter.path uploadedFile;
     Puter.imagePath := Puter.path uploadedImage;
     Puter.companyName := companyName a;
     Puter.jobTitle := jobTitle a;
     Puter.jobDescription := jobDescription a;
     Puter.feedback := JString "" |}.

(** Services that work, with an AI that answers [answer] and a parser that
    accepts only the text ["{}"]. *)
Definition workingServices (env : Env) (answer : string) : Puter.Services :=
  {| Puter.pdf := env;
     Puter.upload := fun n files =>
       Normal (Some {| Puter.path := if (n =? 0)%nat then "/resume.pdf" else "/resume.png" |});
     Puter.kvSet := fun _ _ _ => Normal tt;
     Puter.aiFeedback := fun _ _ => Normal (Some {| Puter.content := Puter.Text answer |});
     Puter.generateUUID := "42";
     Puter.prepareInstructions := fun _ _ => "instructions";
     Puter.stringify := fun data => Puter.id data;
     Puter.parse := fun text =>
       if String.eqb text "{}" then Normal (JObject [])
       else Throw (ErrorInstance "Unexpected token");
     Puter.typeErrorMessage := "Cannot read properties of undefined (reading 'text')" |}.

(** A filled form: "Acme", "Dev", "Go". *)
Definition filledSubmission : Submission :=
  {| companyName := [65; 99; 109; 101]%N;
     jobTitle := [68; 101; 118]%N;
     jobDescription := [71; 111]%N;
     submittedFile := resumePdf |}.

(** The calls of an analysis in which every service answered: the two
    uploads, the record without feedback, the question to the AI, the
    record with [stored] as feedback under the same key, and the
    navigation [last]. *)
Definition completedCalls (sv : Puter.Services) (a : Submission) (image : File.t)
           (storedFile storedImage : Puter.FSItem) (stored : Json)
           (last : Puter.Call) : list Puter.Call :=
  let data := recordOf sv a storedFile storedImage in
  let key := "resume:" ++ Puter.generateUUID sv in
  [Puter.FsUpload [submittedFile a];
   Puter.FsUpload [image];
   Puter.KvSet key (Puter.stringify sv data);
   Puter.AiFeedback (Puter.path storedFile)
                    (Puter.prepareInstructions sv (jobTitle a) (jobDescription a));
   Puter.KvSet key (Puter.stringify sv (Puter.withFeedback data stored));
   last].

(** The text of an answer: the content itself, or the text of its first
    part. *)
Definition answerText (answer : Puter.AIResponse) : option string :=
  match Puter.content answer with
  | Puter.Text s => Some s
  | Puter.Parts texts => head texts
  end.

(** A store holding one analysis, whose image cannot be read. *)
Definition storeWithoutImage : Resume.Services :=
  {| Resume.kvGet := fun key =>
       Normal (if String.eqb key "resume:42" then Some "{...}" else None);
     Resume.parse := fun _ => Normal (JObject [("imagePath", JString "/resume.png")]);
     Resume.fsRead := fun _ => Throw (ErrorInstance "not found");
     Resume.createObjectURL := fun _ => Normal "blob:resumate/1";
     Resume.typeErrorMessage := "Cannot read properties of null (reading 'imagePath')" |}.

(** Services whose storage answers [undefined] to every upload. *)
Definition storageUnavailable : Puter.Services :=
  {| Puter.pdf := browser;
     Puter.upload := fun _ _ => Normal None;
     Puter.kvSet := fun _ _ _ => Normal tt;
     Puter.aiFeedback := fun _ _ => Normal None;
     Puter.generateUUID := "42";
     Puter.prepareInstructions := fun _ _ => "instructions";
     Puter.stringify := fun data => Puter.id data;
     Puter.parse := fun _ => Normal JNull;
     Puter.typeErrorMessage := "Cannot read properties of undefined (reading 'text')" |}.

(* ===================================================================== *)
(** * Properties                                                          *)
(* ===================================================================== *)

(** ** Strings *)

Lemma startsWith_app (p b : string) : JsString.startsWith (p ++ b) p = true.
Proof.
  induction p as [|c p IH]; simpl; [reflexivity|].
  rewrite Ascii.eqb_refl. exact IH.
Qed.

Lemma startsWith_split (s p : string) :
  JsString.startsWith s p = true -> exists b, s = p ++ b.
Proof.
  revert s. induction p as [|c p IH]; intros s H.
  - exists s. reflexivity.
  - destruct s as [|d s]; simpl in H; [discriminate|].
    apply andb_true_iff in H as [Hc Hs].
    apply Ascii.eqb_eq in Hc. subst d.
    destruct (IH _ Hs) as [b ->]. exists b. reflexivity.
Qed.

Lemma includes_of_startsWith (s p : string) :
  JsString.startsWith s p = true -> JsString.includes s p = true.
Proof. intros H. destruct s; simpl; rewrite H; reflexivity. Qed.

Lemma includes_cons (c : ascii) (s p : string) :
  JsString.includes s p = true -> JsString.includes (String c s) p = true.
Proof. intros H. cbn [JsString.includes]. rewrite H. apply orb_true_r. Qed.

(** [includes] is the substring test. *)
Lemma includes_spec (s p : string) :
  JsString.includes s p = true <-> exists a b, s = a ++ p ++ b.
Proof.
  split.
  - induction s as [|c s IH]; simpl; intros H.
    + apply orb_true_iff in H as [H|H]; [|discriminate].
      apply startsWith_split in H as [b Hb]. exists "", b. exact Hb.
    + apply orb_true_iff in H as [H|H].
      * apply startsWith_split in H as [b Hb]. exists "", b. exact Hb.
      * destruct (IH H) as (a & b & ->). exists (String c a), b. reflexivity.
  - intros (a & b & ->). induction a as [|c a IH].
    + apply includes_of_startsWith. exact (startsWith_app p b).
    + apply includes_cons, IH.
Qed.

(** [endsWith] is the suffix test. *)
Lemma endsWith_spec (s p : string) :
  JsString.endsWith s p = true <-> exists a, s = a ++ p.
Proof.
  split.
  - induction s as [|c s IH]; cbn [JsString.endsWith]; intros H.
    + apply orb_true_iff in H as [H|H]; [|discriminate].
      apply String.eqb_eq in H. exists "". exact H.
    + apply orb_true_iff in H as [H|H].
      * apply String.eqb_eq in H. exists "". exact H.
      * destruct (IH H) as [a ->]. exists (String c a). reflexivity.
  - intros [a ->]. induction a as [|c a IH].
    + destruct p; cbn [append JsString.endsWith]; rewrite String.eqb_refl; reflexivity.
    + change (String c a ++ p) with (String c (a ++ p)).
      cbn [JsString.endsWith]. rewrite IH. apply orb_true_r.
Qed.

Lemma toLowerCase_length (s : string) :
  String.length (JsString.toLowerCase s) = String.length s.
Proof. induction s as [|c s IH]; simpl; congruence. Qed.

Lemma toLowerCase_app (a b : string) :
  JsString.toLowerCase (a ++ b) = JsString.toLowerCase a ++ JsString.toLowerCase b.
Proof. induction a as [|c a IH]; simpl; congruence. Qed.

Lemma eqbCI_length (s p : string) :
  JsString.eqbCI s p = true -> String.length s = String.length p.
Proof.
  unfold JsString.eqbCI. intros H. apply String.eqb_eq in H.
  rewrite <- (toLowerCase_length s), <- (toLowerCase_length p). congruence.
Qed.

Lemma string_app_length (a b : string) :
  String.length (a ++ b) = (String.length a + String.length b)%nat.
Proof. induction a as [|c a IH]; simpl; congruence. Qed.

(** With a match at the end, the matched suffix is replaced. *)
Lemma replaceAtEndCI_match (pat repl a t : string) :
  JsString.eqbCI t pat = true ->
  JsString.replaceAtEndCI pat repl (a ++ t) = a ++ repl.
Proof.
  intros Ht. induction a as [|c a IH].
  - cbn [append]. destruct t; cbn [JsString.replaceAtEndCI]; rewrite Ht; reflexivity.
  - change (String c a ++ t) with (String c (a ++ t)).
    cbn [JsString.replaceAtEndCI].
    destruct (JsString.eqbCI (String c (a ++ t)) pat) eqn:E.
    + apply eqbCI_length in E. apply eqbCI_length in Ht.
      simpl in E. rewrite string_app_length in E. lia.
    + rewrite IH. reflexivity.
Qed.

(** The case-insensitive suffix test of the validator and the anchored
    pattern of the renaming accept the same names. *)
Lemma endsWith_lower_split (pat s : string) :
  JsString.endsWith (JsString.toLowerCase s) (JsString.toLowerCase pat) = true ->
  exists a t, s = a ++ t /\ JsString.eqbCI t pat = true.
Proof.
  induction s as [|c s IH]; cbn [JsString.endsWith JsString.toLowerCase]; intros H.
  - apply orb_true_iff in H as [H|H]; [|discriminate].
    exists "", "". split; [reflexivity|exact H].
  - apply orb_true_iff in H as [H|H].
    + exists "", (String c s). split; [reflexivity|exact H].
    + destruct (IH H) as (a & t & -> & Ht).
      exists (String c a), t. split; [reflexivity|exact Ht].
Qed.

(** Without a match the string is returned as it is. *)
Lemma replaceAtEndCI_nomatch (pat repl s : string) :
  JsString.endsWith (JsString.toLowerCase s) (JsString.toLowerCase pat) = false ->
  JsString.replaceAtEndCI pat repl s = s.
Proof.
  induction s as [|c s IH];
    cbn [JsString.endsWith JsString.toLowerCase JsString.replaceAtEndCI]; intros H.
  - apply orb_false_iff in H as [H _].
    unfold JsString.eqbCI. cbn [JsString.toLowerCase]. rewrite H. reflexivity.
  - apply orb_false_iff in H as [H1 H2].
    unfold JsString.eqbCI. cbn [JsString.toLowerCase]. rewrite H1.
    rewrite (IH H2). reflexivity.
Qed.

(** ** The loader *)

Lemma Shape_loadPdfJs (s : Loader.State) :
  Loader.Shape s -> Loader.Shape (snd (Loader.loadPdfJs s)).
Proof. intros []; cbn; constructor. Qed.

Lemma Shape_resolveImport (url : string) (p : nat) (lib : PdfJs) (s : Loader.State) :
  Loader.Shape s -> Loader.Shape (Loader.resolveImport url p lib s).
Proof.
  intros []; unfold Loader.resolveImport; cbn [Loader.promises Loader.init];
    try (destruct p as [|[|p]]; cbn; constructor).
Qed.

Lemma Shape_rejectImport (p : nat) (e : Thrown) (s : Loader.State) :
  Loader.Shape s -> Loader.Shape (Loader.rejectImport p e s).
Proof.
  intros []; unfold Loader.rejectImport; cbn [Loader.promises Loader.init];
    try (destruct p as [|[|p]]; cbn; constructor).
Qed.

Lemma Shape_step (url : string) (s : Loader.State) (ev : Loader.Event) :
  Loader.Shape s -> Loader.Shape (Loader.step url s ev).
Proof.
  intros H. destruct ev; cbn [Loader.step].
  - apply Shape_loadPdfJs, H.
  - apply Shape_resolveImport, H.
  - apply Shape_rejectImport, H.
Qed.

Lemma Shape_run (url : string) (evs : list Loader.Event) (s : Loader.State) :
  Loader.Shape s -> Loader.Shape (Loader.run url evs s).
Proof.
  revert s. induction evs as [|ev evs IH]; intros s H; [exact H|].
  apply IH, Shape_step, H.
Qed.

Lemma Shape_imports (s : Loader.State) :
  Loader.Shape s -> Loader.importsStarted s <= 1.
Proof. intros []; cbn; lia. Qed.

(** Once an import was started, no event starts another one. *)
Lemma step_imports_started (url : string) (s : Loader.State) (ev : Loader.Event) :
  Loader.Shape s -> Loader.importsStarted s = 1 ->
  Loader.importsStarted (Loader.step url s ev) = 1.
Proof.
  intros H Hn.
  pose proof (Shape_imports _ (Shape_step url s ev H)) as Hle.
  destruct H; try discriminate Hn;
    destruct ev as [|p lib'|p e']; try reflexivity;
    destruct p as [|[|p]]; reflexivity.
Qed.

Lemma run_imports_started (url : string) (evs : list Loader.Event) (s : Loader.State) :
  Loader.Shape s -> Loader.importsStarted s = 1 ->
  Loader.importsStarted (Loader.run url evs s) = 1.
Proof.
  revert s. induction evs as [|ev evs IH]; intros s H Hn; [exact Hn|].
  apply IH; [apply Shape_step, H | apply step_imports_started; assumption].
Qed.

(** Settlements that arrive before any call find no promise to settle. *)
Lemma step_init_settlement (url : string) (ev : Loader.Event) :
  Loader.isCall ev = false -> Loader.step url Loader.init ev = Loader.init.
Proof. destruct ev as [|p lib|p e]; [discriminate| |]; intros _; destruct p; reflexivity. Qed.

Lemma run_imports_exact (url : string) (evs : list Loader.Event) :
  Loader.importsStarted (Loader.run url evs Loader.init)
  = if existsb Loader.isCall evs then 1 else 0.
Proof.
  induction evs as [|ev evs IH]; [reflexivity|].
  cbn [existsb]. destruct (Loader.isCall ev) eqn:E.
  - destruct ev; try discriminate E. cbn [orb].
    apply (run_imports_started url evs); [constructor | reflexivity].
  - cbn [orb]. change (Loader.run url (ev :: evs) Loader.init)
      with (Loader.run url evs (Loader.step url Loader.init ev)).
    rewrite step_init_settlement by exact E. exact IH.
Qed.

(** Calls made before the first settlement all receive promise 0. *)
Lemma run_calls_in_flight (url : string) (n : nat) :
  Loader.run url (repeat Loader.Call (S n)) Loader.init
  = {| Loader.pdfjsLib := None; Loader.loadPromise := Some 0;
       Loader.promises := [Loader.Pending] |}.
Proof. induction n as [|n IH]; [reflexivity|]. 
  change (repeat Loader.Call (S (S n))) with (Loader.Call :: repeat Loader.Call (S n)).
  cbn [Loader.run fold_left]. 
  change (Loader.step url Loader.init Loader.Call) with
    {| Loader.pdfjsLib := None; Loader.loadPromise := Some 0;
       Loader.promises := [Loader.Pending] |}.
  clear IH. induction n as [|n IH]; [reflexivity|]. exact IH.
Qed.

(** ** The effect monad and the conversion pipeline *)

(** The only step of the pipeline that touches the loader is the first. *)
Lemma conversionBody_loader (env : Env) (f : File.t) (w : World) :
  loader (snd (conversionBody env f w)) = loader (snd (awaitLoadPdfJs env w)).
Proof.
  unfold conversionBody, bind, perform, ret, throw, logged.
  destruct (awaitLoadPdfJs env w) as [[lib|e] w1]; [|reflexivity].
  cbn [snd].
  destruct (arrayBuffer env f); [|reflexivity].
  destruct (getDocument env lib a 0); [|reflexivity].
  destruct (getPage env a0 1); [|reflexivity].
  destruct (getViewport env a1 scale); [|reflexivity].
  destruct (getContext2d env); [|reflexivity]. cbn [negb].
  destruct (render env _ _ _); [|reflexivity].
  destruct (toBlob env _ _ _) as [[blob|]|]; reflexivity.
Qed.

Lemma awaitLoadPdfJs_Shape (env : Env) (w : World) :
  Loader.Shape (loader w) -> Loader.Shape (loader (snd (awaitLoadPdfJs env w))).
Proof.
  intros H. unfold awaitLoadPdfJs.
  destruct H; cbn; try constructor;
    destruct (importSettles env); cbn; constructor.
Qed.

Lemma convertPdfToImage_Shape (env : Env) (f : File.t) (w : World) :
  Loader.Shape (loader w) -> Loader.Shape (loader (snd (convertPdfToImage env f w))).
Proof.
  intros H. unfold convertPdfToImage.
  destruct (negb (hasWindow env) || negb (hasDocument env)); [exact H|].
  destruct (_ && _); [exact H|].
  destruct (File.size f >? maxSize)%Z; [exact H|].
  unfold tryCatch, recover, ret.
  pose proof (conversionBody_loader env f w) as Hl.
  destruct (conversionBody env f w) as [[r|e] w1]; cbn [snd] in *;
    rewrite Hl; apply awaitLoadPdfJs_Shape, H.
Qed.

Lemma convertAll_Shape (calls : list (Env * File.t)) (w : World) :
  Loader.Shape (loader w) -> Loader.Shape (loader (snd (convertAll calls w))).
Proof.
  revert w. induction calls as [|[env f] calls IH]; intros w H; [exact H|].
  cbn [convertAll].
  pose proof (convertPdfToImage_Shape env f w H) as H1.
  destruct (convertPdfToImage env f w) as [r w1]. cbn [snd] in H1.
  specialize (IH w1 H1). destruct (convertAll calls w1) as [rs w2]. exact IH.
Qed.

(** The chain of [if]s of [convertPdfToImage] is the validator of the
    specification: the first failing rule decides, and nothing else is
    touched. *)
Lemma convert_by_rules (env : Env) (f : File.t) (w : World) :
  convertPdfToImage env f w =
  match firstFailing env f with
  | Some r => (Normal (failure (ruleMessage r)), w)
  | None => tryCatch (conversionBody env f) recover w
  end.
Proof.
  unfold convertPdfToImage, firstFailing, rulesInOrder, maxSize.
  cbn [List.find ruleFails].
  destruct (hasWindow env), (hasDocument env); cbn [negb orb andb]; try reflexivity.
  destruct (JsString.includes (File.type f) "pdf");
    destruct (JsString.endsWith (JsString.toLowerCase (File.name f)) ".pdf");
    cbn [negb orb andb]; try reflexivity;
    rewrite Z.gtb_ltb, Z.leb_antisym;
    destruct (50 * 1024 * 1024 <? File.size f)%Z; reflexivity.
Qed.

(** The three ways the [try] block can end. *)
Lemma conversionBody_outcomes (env : Env) (f : File.t) (w : World) :
  (exists e w1, conversionBody env f w = (Throw e, w1))
  \/ (exists w1, conversionBody env f w = (Normal (failure blobError), w1))
  \/ (exists blob w1,
        RendersTo env f w blob
        /\ conversionBody env f w
           = (Normal {| imageUrl := createObjectURL env blob;
                        file := Some (imageFileOf env f blob);
                        error := None |}, w1)).
Proof.
  unfold RendersTo, conversionBody, bind, perform, ret, throw.
  destruct (awaitLoadPdfJs env w) as [[lib|e] w1] eqn:Hl; [|left; eauto].
  destruct (arrayBuffer env f) as [buffer|e] eqn:Hb; [|left; eauto].
  destruct (getDocument env lib buffer 0) as [pdf|e] eqn:Hd; [|left; eauto].
  destruct (getPage env pdf 1) as [page|e] eqn:Hp; [|left; eauto].
  destruct (getViewport env page scale) as [viewport|e] eqn:Hv; [|left; eauto].
  destruct (getContext2d env) eqn:Hc; cbn [negb]; [|left; eauto].
  destruct (render env page (canvasOf viewport) viewport) as [[]|e] eqn:Hr;
    [|left; eauto].
  destruct (toBlob env (canvasOf viewport) "image/png" quality) as [[blob|]|e] eqn:Ht;
    [| right; left; eauto | left; eauto].
  right; right. exists blob. eexists. split; [|reflexivity].
  exists lib, w1, buffer, pdf, page, viewport. repeat split; assumption.
Qed.

Lemma conversionBody_renders (env : Env) (f : File.t) (w : World) (blob : Blob.t) :
  RendersTo env f w blob ->
  exists w1,
    conversionBody env f w
    = (Normal {| imageUrl := createObjectURL env blob;
                 file := Some (imageFileOf env f blob);
                 error := None |}, w1).
Proof.
  intros (lib & w1 & buffer & pdf & page & viewport
          & Hl & Hb & Hd & Hp & Hv & Hc & Hr & Ht).
  unfold conversionBody, bind, perform, ret, throw.
  rewrite Hl, Hb, Hd, Hp, Hv, Hc. cbn [negb]. rewrite Hr, Ht.
  eexists. reflexivity.
Qed.

Lemma conversionBody_parse_failure (env : Env) (f : File.t) (w w1 : World)
      (lib : PdfJs) (buffer : list Byte.byte) (e : Thrown) :
  awaitLoadPdfJs env w = (Normal lib, w1) ->
  arrayBuffer env f = Normal buffer ->
  getDocument env lib buffer 0 = Throw e ->
  conversionBody env f w
  = (Throw e, logged CalledGetDocument (logged ReadArrayBuffer w1)).
Proof.
  intros Hl Hb Hd. unfold conversionBody, bind, perform.
  rewrite Hl, Hb, Hd. reflexivity.
Qed.

(** ** The error classifier *)

(** The chain of [else if]s walks the categories in their order; the text
    the variable is initialised with never reaches the result. *)
Lemma classify_firstCategory (err : Thrown) :
  classify err = firstCategory (underlyingMessage err).
Proof.
  unfold classify, firstCategory, categories. cbn [List.find fst snd].
  destruct err as [m|m]; cbn [underlyingMessage];
    destruct (JsString.includes m "Invalid PDF"); try reflexivity;
    destruct (JsString.includes m "password"); try reflexivity;
    destruct (JsString.includes m "worker"); reflexivity.
Qed.

Lemma classify_empty (err : Thrown) :
  classify err = "" -> underlyingMessage err = "".
Proof.
  rewrite classify_firstCategory.
  unfold firstCategory, categories. cbn [List.find fst snd].
  destruct (JsString.includes _ "Invalid PDF"); [discriminate|].
  destruct (JsString.includes _ "password"); [discriminate|].
  destruct (JsString.includes _ "worker"); [discriminate|].
  trivial.
Qed.

(* ===================================================================== *)
(** * The statements of the specification, one by one                    *)
(* ===================================================================== *)

(** C1, as stated, fails: when the document parser rejects with an [Error]
    whose message is empty, the converter returns [file: null] together
    with the empty string as [error], which is neither of the two shapes. *)
Lemma convert_empty_error_message :
  exists r w',
    convertPdfToImage (parseFailsWith (ErrorInstance "")) resumePdf initialWorld
    = (Normal r, w')
    /\ file r = None /\ error r = Some ""
    /\ ~ ExactlyOne r.
Proof.
  eexists. eexists. split; [vm_compute; reflexivity|].
  cbn [file error]. repeat split.
  intros [[H _]|[_ (msg & Hm & Hne)]].
  - apply H. reflexivity.
  - injection Hm as <-. apply Hne. reflexivity.
Qed.

(** C1, amended: every invocation returns a result and never throws; the
    result is either a success (a file, a locator, no [error] field) or a
    failure (no file, empty locator, the [error] field set), and the error
    text of a failure is non-empty unless the [try] block threw a value
    whose message is itself empty. *)
Theorem convert_returns_result (env : Env) (f : File.t) (w : World) :
  exists r w',
    convertPdfToImage env f w = (Normal r, w')
    /\ ((exists out, file r = Some out /\ error r = None)
        \/ (file r = None /\ imageUrl r = ""
            /\ exists msg, error r = Some msg
               /\ (msg <> ""
                   \/ exists err w1,
                        conversionBody env f w = (Throw err, w1)
                        /\ underlyingMessage err = ""))).
Proof.
  rewrite convert_by_rules.
  destruct (firstFailing env f) as [r|].
  - eexists. eexists. split; [reflexivity|]. right.
    cbn [failure file imageUrl error]. repeat split.
    eexists. split; [reflexivity|]. left. destruct r; discriminate.
  - unfold tryCatch, recover, ret.
    destruct (conversionBody_outcomes env f w)
      as [(e & w1 & H) | [(w1 & H) | (blob & w1 & _ & H)]]; rewrite H.
    + eexists. eexists. split; [reflexivity|]. right.
      cbn [failure file imageUrl error]. repeat split.
      eexists. split; [reflexivity|].
      destruct (string_dec (classify e) "") as [E|E]; [right|left; exact E].
      exists e, w1. split; [reflexivity|]. apply classify_empty, E.
    + eexists. eexists. split; [reflexivity|]. right.
      cbn [failure file imageUrl error]. repeat split.
      eexists. split; [reflexivity|]. left. discriminate.
    + eexists. eexists. split; [reflexivity|]. left.
      cbn [file error]. eexists. split; reflexivity.
Qed.

(** C2: the three rules are checked in the order browser context, format,
    size; the first one that fails returns
    [{ imageUrl: "", file: null, error: <its message> }] and leaves the
    world as it was (no later rule, no call into the rendering library, no
    effect at all); when none fails the conversion is attempted. *)
Theorem validation_first_failure_wins (env : Env) (f : File.t) (w : World) :
  (ruleFails env f BrowserContext = (negb (hasWindow env) || negb (hasDocument env))
   /\ ruleFails env f PdfFormat
      = (negb (JsString.includes (File.type f) "pdf")
         && negb (JsString.endsWith (JsString.toLowerCase (File.name f)) ".pdf"))
   /\ ruleFails env f SizeLimit = (File.size f >? maxSize)%Z)
  /\ firstFailing env f
     = (if ruleFails env f BrowserContext then Some BrowserContext
        else if ruleFails env f PdfFormat then Some PdfFormat
        else if ruleFails env f SizeLimit then Some SizeLimit
        else None)
  /\ convertPdfToImage env f w
     = match firstFailing env f with
       | Some r =>
           (Normal {| imageUrl := ""; file := None; error := Some (ruleMessage r) |}, w)
       | None => tryCatch (conversionBody env f) recover w
       end.
Proof.
  split; [|split].
  - cbn [ruleFails]. repeat split.
    + destruct (hasWindow env), (hasDocument env); reflexivity.
    + destruct (JsString.includes _ _), (JsString.endsWith _ _); reflexivity.
    + unfold maxSize. rewrite Z.gtb_ltb, Z.leb_antisym, negb_involutive. reflexivity.
  - unfold firstFailing, rulesInOrder. cbn [List.find].
    destruct (ruleFails env f BrowserContext); [reflexivity|].
    destruct (ruleFails env f PdfFormat); [reflexivity|].
    destruct (ruleFails env f SizeLimit); reflexivity.
  - apply convert_by_rules.
Qed.

(** C6, as stated, fails: a file of more than 50 MiB that is not a PDF is
    turned away by the format rule, which comes first, and a run outside
    the browser by the context rule. *)
Lemma oversized_text_file_gets_format_error :
  (File.size bigTextFile > 50 * 1024 * 1024)%Z
  /\ convertPdfToImage browser bigTextFile initialWorld
     = (Normal (failure formatError), initialWorld)
  /\ convertPdfToImage server bigPdf initialWorld
     = (Normal (failure contextError), initialWorld)
  /\ failure formatError <> failure sizeError
  /\ failure contextError <> failure sizeError.
Proof.
  split; [vm_compute; reflexivity|].
  split; [vm_compute; reflexivity|].
  split; [vm_compute; reflexivity|].
  split; discriminate.
Qed.

(** C6, amended: in a browser, a file that passes the format rule and whose
    size exceeds 50*1024*1024 bytes gets the size-limit error, whatever its
    bytes are, and nothing is loaded or read. *)
Theorem oversized_pdf_gets_size_error
        (env : Env) (w : World)
        (name type : string) (size : Z) (content : list Byte.byte) (lastModified : Z) :
  hasWindow env = true -> hasDocument env = true ->
  JsString.includes type "pdf" || JsString.endsWith (JsString.toLowerCase name) ".pdf" = true ->
  (size > 50 * 1024 * 1024)%Z ->
  convertPdfToImage env (File.mk name type size content lastModified) w
  = (Normal {| imageUrl := ""; file := None; error := Some sizeError |}, w).
Proof.
  intros Hw Hd Hf Hs.
  unfold convertPdfToImage. cbn [File.type File.name File.size].
  rewrite Hw, Hd. cbn [negb orb].
  rewrite <- negb_orb, Hf. cbn [negb].
  unfold maxSize.
  destruct (Z.gtb_spec size (50 * 1024 * 1024)) as [_|Hle]; [reflexivity|lia].
Qed.

Lemma oversized_pdf_gets_size_error_witness :
  convertPdfToImage browser bigPdf initialWorld
  = (Normal {| imageUrl := ""; file := None; error := Some sizeError |}, initialWorld).
Proof.
  apply (oversized_pdf_gets_size_error browser initialWorld
           "thesis.pdf" "application/pdf" (50 * 1024 * 1024 + 1) pdfBytes 0).
  - reflexivity.
  - reflexivity.
  - vm_compute; reflexivity.
  - vm_compute; reflexivity.
Defined.

(** C3, as stated, fails: after the import behind the first call is
    rejected, the next call finds [loadPromise] still set, returns that
    rejected promise and starts nothing; a second conversion, run when the
    import would succeed, still reports the first failure. *)
Lemma failed_load_is_cached :
  let s := Loader.run "/assets/pdf.worker.min.mjs" callThenFailure Loader.init in
  Loader.promises s !! 0%nat = Some (Loader.Rejected fetchFailed)
  /\ Loader.loadPdfJs s = (Loader.InFlight 0, s)
  /\ Loader.importsStarted (snd (Loader.loadPdfJs s)) = Loader.importsStarted s
  /\ exists w',
       convertAll [(importFailsWith fetchFailed, resumePdf); (browser, resumePdf)]
                  initialWorld
       = ([Normal (failure "Failed to fetch dynamically imported module");
           Normal (failure "Failed to fetch dynamically imported module")], w')
       /\ Loader.importsStarted (loader w') = 1%nat.
Proof.
  cbv zeta. repeat split; try (vm_compute; reflexivity).
  eexists. split; vm_compute; reflexivity.
Qed.

(** A reachable state in which promise [p] is rejected is the failed one. *)
Lemma Shape_rejected (s : Loader.State) (p : nat) (e : Thrown) :
  Loader.Shape s ->
  Loader.promises s !! p = Some (Loader.Rejected e) ->
  s = {| Loader.pdfjsLib := None; Loader.loadPromise := Some 0%nat;
         Loader.promises := [Loader.Rejected e] |} /\ p = 0%nat.
Proof.
  intros [] H; cbn in H; destruct p as [|p]; cbn in H; try discriminate H.
  injection H as ->. split; reflexivity.
Qed.

(** C3, amended: a failed load is cached. In every state the loader can
    reach, once the promise of the load has been rejected with [e], a call
    of [loadPdfJs] returns that same rejected promise and changes nothing
    (no new import), and a conversion that gets past validation fails with
    the classified message of [e] after calling the loader and nothing
    else. *)
Theorem failed_load_stays_cached
        (url : string) (evs : list Loader.Event) (p : nat) (e : Thrown)
        (env : Env) (f : File.t) (w : World) :
  loader w = Loader.run url evs Loader.init ->
  Loader.promises (loader w) !! p = Some (Loader.Rejected e) ->
  firstFailing env f = None ->
  Loader.loadPdfJs (loader w) = (Loader.InFlight p, loader w)
  /\ Loader.importsStarted (snd (Loader.loadPdfJs (loader w)))
     = Loader.importsStarted (loader w)
  /\ convertPdfToImage env f w
     = (Normal (failure (classify e)), logged CalledLoadPdfJs w).
Proof.
  intros Hrun Hp Hv.
  assert (Hs : Loader.Shape (loader w))
    by (rewrite Hrun; apply Shape_run; constructor).
  destruct (Shape_rejected _ _ _ Hs Hp) as [Hw ->].
  rewrite convert_by_rules, Hv.
  unfold tryCatch, conversionBody, bind, awaitLoadPdfJs, recover, ret, logged.
  destruct w as [s log]. cbn [loader effects] in *. subst s.
  clear Hp Hs. rewrite Hw. repeat split.
Qed.

Lemma failed_load_stays_cached_witness :
  Loader.loadPdfJs (Loader.run "/assets/pdf.worker.min.mjs" callThenFailure Loader.init)
  = (Loader.InFlight 0,
     Loader.run "/assets/pdf.worker.min.mjs" callThenFailure Loader.init)
  /\ convertPdfToImage browser resumePdf
       {| loader := Loader.run "/assets/pdf.worker.min.mjs" callThenFailure Loader.init;
          effects := [] |}
     = (Normal (failure "Failed to fetch dynamically imported module"),
        {| loader := Loader.run "/assets/pdf.worker.min.mjs" callThenFailure Loader.init;
           effects := [CalledLoadPdfJs] |}).
Proof.
  destruct (failed_load_stays_cached
              "/assets/pdf.worker.min.mjs" callThenFailure 0 fetchFailed
              browser resumePdf
              {| loader := Loader.run "/assets/pdf.worker.min.mjs" callThenFailure Loader.init;
                 effects := [] |})
    as (H1 & _ & H2).
  - reflexivity.
  - vm_compute; reflexivity.
  - vm_compute; reflexivity.
  - split; [exact H1 | exact H2].
Defined.

(** C4: whatever calls and settlements happen in one process, the number of
    imports started is one as soon as [loadPdfJs] has been called and zero
    before, hence never more than one; a call returns the memoized module
    at once when it is set, the promise in flight when there is one, and
    starts an import only when both are unset; calls made before the first
    settlement all share promise 0; conversions run one after the other
    start at most one import as well. *)
Theorem loadPdfJs_single_import
        (url : string) (evs : list Loader.Event) (s : Loader.State) (n : nat)
        (calls : list (Env * File.t)) :
  Loader.importsStarted (Loader.run url evs Loader.init)
  = (if existsb Loader.isCall evs then 1 else 0)%nat
  /\ Loader.importsStarted (Loader.run url evs Loader.init) <= 1
  /\ match Loader.pdfjsLib s, Loader.loadPromise s with
     | Some lib, _ => Loader.loadPdfJs s = (Loader.Handle lib, s)
     | None, Some p => Loader.loadPdfJs s = (Loader.InFlight p, s)
     | None, None =>
         fst (Loader.loadPdfJs s) = Loader.InFlight (Loader.importsStarted s)
         /\ Loader.loadPromise (snd (Loader.loadPdfJs s)) = Some (Loader.importsStarted s)
         /\ Loader.importsStarted (snd (Loader.loadPdfJs s)) = S (Loader.importsStarted s)
     end
  /\ (let concurrent := Loader.run url (repeat Loader.Call (S n)) Loader.init in
      Loader.importsStarted concurrent = 1%nat
      /\ Loader.loadPdfJs concurrent = (Loader.InFlight 0, concurrent))
  /\ Loader.importsStarted (loader (snd (convertAll calls initialWorld))) <= 1.
Proof.
  split; [apply run_imports_exact|].
  split; [apply Shape_imports, Shape_run; constructor|].
  split.
  { unfold Loader.loadPdfJs, Loader.importsStarted.
    destruct (Loader.pdfjsLib s); [reflexivity|].
    destruct (Loader.loadPromise s); [reflexivity|].
    cbn [fst snd Loader.loadPromise Loader.promises].
    rewrite length_app. cbn [length]. repeat split. lia. }
  split.
  { cbv zeta. rewrite run_calls_in_flight. split; reflexivity. }
  apply Shape_imports, convertAll_Shape. constructor.
Qed.

(** C5, as stated, fails in its last clause: the text the variable starts
    with is overwritten on both branches of the [instanceof] test, so a
    caught value with nothing to say (an [Error] with an empty message,
    or a rejection with [undefined]) is reported by its raw message, not
    by "Failed to convert PDF". *)
Lemma empty_message_is_not_defaulted :
  classifierAsSpecified (ErrorInstance "") = "Failed to convert PDF"
  /\ classify (ErrorInstance "") = ""
  /\ classify (OtherValue "undefined") = "undefined"
  /\ classify (ErrorInstance "") <> classifierAsSpecified (ErrorInstance "")
  /\ fst (convertPdfToImage (parseFailsWith (ErrorInstance "")) resumePdf initialWorld)
     = Normal (failure "").
Proof.
  repeat split; try (vm_compute; reflexivity).
  vm_compute. discriminate.
Qed.

(** C5, amended: for every value caught during conversion the result
    carries the text of the first category, in the order "Invalid PDF",
    "password", "worker", whose substring occurs in the underlying message
    ([err.message] of an [Error], [String(err)] of anything else), and the
    underlying message itself, unchanged, when none occurs; this agrees
    with the classifier of the specification on every non-empty message. *)
Theorem caught_error_is_classified
        (env : Env) (f : File.t) (w w1 : World) (err : Thrown) :
  firstFailing env f = None ->
  conversionBody env f w = (Throw err, w1) ->
  convertPdfToImage env f w
  = (Normal {| imageUrl := ""; file := None;
               error := Some (firstCategory (underlyingMessage err)) |}, w1)
  /\ firstCategory (underlyingMessage err)
     = (if JsString.includes (underlyingMessage err) "Invalid PDF" then
          "The uploaded file appears to be corrupted or is not a valid PDF."
        else if JsString.includes (underlyingMessage err) "password" then
          "Password-protected PDFs are not supported."
        else if JsString.includes (underlyingMessage err) "worker" then
          "PDF processing worker failed to load. Please try again."
        else underlyingMessage err)
  /\ (underlyingMessage err = ""
      \/ classify err = classifierAsSpecified err).
Proof.
  intros Hv Hb. split; [|split].
  - rewrite convert_by_rules, Hv. unfold tryCatch, recover, ret.
    rewrite Hb, classify_firstCategory. reflexivity.
  - unfold firstCategory, categories. cbn [List.find fst snd].
    destruct (JsString.includes _ "Invalid PDF"); [reflexivity|].
    destruct (JsString.includes _ "password"); [reflexivity|].
    destruct (JsString.includes _ "worker"); reflexivity.
  - unfold classifierAsSpecified.
    destruct (String.eqb_spec (underlyingMessage err) "") as [E|E].
    + left. exact E.
    + right. apply classify_firstCategory.
Qed.

Lemma caught_error_is_classified_witness :
  convertPdfToImage (parseFailsWith (ErrorInstance "Setting up fake worker failed"))
                    resumePdf initialWorld
  = (Normal (failure "PDF processing worker failed to load. Please try again."),
     snd (conversionBody (parseFailsWith (ErrorInstance "Setting up fake worker failed"))
                         resumePdf initialWorld)).
Proof.
  destruct (caught_error_is_classified
              (parseFailsWith (ErrorInstance "Setting up fake worker failed"))
              resumePdf initialWorld
              (snd (conversionBody
                      (parseFailsWith (ErrorInstance "Setting up fake worker failed"))
                      resumePdf initialWorld))
              (ErrorInstance "Setting up fake worker failed"))
    as (H & _ & _).
  - vm_compute; reflexivity.
  - vm_compute; reflexivity.
  - exact H.
Defined.

(** C7, as stated, fails for a name without the suffix: the converter
    strips a trailing [.pdf] and then appends [.png] in every case, so a
    PDF called [resume] comes back as [resume.png], while replacing the
    suffix would leave the name as it is. *)
Lemma name_without_suffix_gets_png_appended :
  firstFailing browser resumeNoExtension = None
  /\ RendersTo browser resumeNoExtension initialWorld pngBlob
  /\ suffixReplaced (File.name resumeNoExtension) = "resume"
  /\ exists r w' out,
       convertPdfToImage browser resumeNoExtension initialWorld = (Normal r, w')
       /\ file r = Some out
       /\ File.name out = "resume.png"
       /\ File.name out <> suffixReplaced (File.name resumeNoExtension).
Proof.
  split; [vm_compute; reflexivity|].
  split; [unfold RendersTo; repeat eexists; vm_compute; reflexivity|].
  split; [vm_compute; reflexivity|].
  eexists. eexists. eexists.
  split; [vm_compute; reflexivity|].
  split; [reflexivity|].
  split; [reflexivity|].
  vm_compute. discriminate.
Qed.

(** The output name, case by case. *)
Lemma imageName_cases (name : string) :
  if JsString.endsWith (JsString.toLowerCase name) ".pdf" then
    exists stem ext,
      name = stem ++ ext /\ JsString.eqbCI ext ".pdf" = true
      /\ imageName name = stem ++ ".png"
      /\ imageName name = suffixReplaced name
  else imageName name = name ++ ".png".
Proof.
  unfold imageName, suffixReplaced.
  destruct (JsString.endsWith (JsString.toLowerCase name) ".pdf") eqn:E.
  - destruct (endsWith_lower_split ".pdf" name E) as (stem & ext & -> & Hext).
    exists stem, ext.
    rewrite !(replaceAtEndCI_match ".pdf" _ stem ext Hext).
    assert (Hnil : stem ++ "" = stem).
    { clear. induction stem as [|c stem IH]; cbn [append]; congruence. }
    rewrite Hnil. split; [reflexivity|]. split; [exact Hext|].
    split; reflexivity.
  - rewrite (replaceAtEndCI_nomatch ".pdf" "" name E). reflexivity.
Qed.

(** C7, amended: when validation passes and loading, parsing, rendering and
    encoding succeed, the result has no [error], its [imageUrl] is the
    object URL created for the encoded blob, and its [file] holds the bytes
    of that blob under media type [image/png]; the name of the file is the
    input name with a trailing [.pdf] (in any case) removed when there is
    one, followed by [.png]: [Resume.PDF] becomes [Resume.png], and a name
    that does not end in [.pdf] gets [.png] appended. *)
Theorem converted_file_is_png
        (env : Env) (f : File.t) (w : World) (blob : Blob.t) :
  firstFailing env f = None ->
  RendersTo env f w blob ->
  (exists w',
     convertPdfToImage env f w
     = (Normal {| imageUrl := createObjectURL env blob;
                  file := Some {| File.name := imageName (File.name f);
                                  File.type := "image/png";
                                  File.size := Blob.size blob;
                                  File.content := Blob.content blob;
                                  File.lastModified := now env |};
                  error := None |}, w'))
  /\ (if JsString.endsWith (JsString.toLowerCase (File.name f)) ".pdf" then
        exists stem ext,
          File.name f = stem ++ ext /\ JsString.eqbCI ext ".pdf" = true
          /\ imageName (File.name f) = stem ++ ".png"
          /\ imageName (File.name f) = suffixReplaced (File.name f)
      else imageName (File.name f) = File.name f ++ ".png")
  /\ imageName "Resume.PDF" = "Resume.png".
Proof.
  intros Hv Hr. split; [|split].
  - destruct (conversionBody_renders env f w blob Hr) as [w1 H].
    exists w1. rewrite convert_by_rules, Hv. unfold tryCatch. rewrite H.
    reflexivity.
  - apply imageName_cases.
  - reflexivity.
Qed.

Lemma converted_file_is_png_witness :
  exists w',
    convertPdfToImage browser resumePdf initialWorld
    = (Normal {| imageUrl := "blob:resumate/0";
                 file := Some {| File.name := "Resume.png";
                                 File.type := "image/png";
                                 File.size := 2;
                                 File.content := [Byte.x89; Byte.x50];
                                 File.lastModified := 1700000000000 |};
                 error := None |}, w').
Proof.
  destruct (converted_file_is_png browser resumePdf initialWorld pngBlob)
    as [H _].
  - vm_compute; reflexivity.
  - unfold RendersTo. repeat eexists; vm_compute; reflexivity.
  - exact H.
Defined.

(** C8, as stated, fails: "Invalid PDF" is tested before "password", so a
    parse failure whose message contains both is reported as a corrupted
    file. *)
Lemma invalid_pdf_outranks_password :
  JsString.includes "Invalid PDF structure: password entry is malformed" "password" = true
  /\ convertPdfToImage
       (parseFailsWith (ErrorInstance "Invalid PDF structure: password entry is malformed"))
       resumePdf initialWorld
     = (Normal (failure "The uploaded file appears to be corrupted or is not a valid PDF."),
        snd (conversionBody
               (parseFailsWith (ErrorInstance "Invalid PDF structure: password entry is malformed"))
               resumePdf initialWorld))
  /\ failure "The uploaded file appears to be corrupted or is not a valid PDF."
     <> failure "Password-protected PDFs are not supported.".
Proof.
  split; [vm_compute; reflexivity|].
  split; [vm_compute; reflexivity|].
  discriminate.
Qed.

(** C8, amended: when validation passes, the library loads, the bytes are
    read and the parser fails with a message that contains "password" and
    does not contain "Invalid PDF", the converter returns the literal
    error "Password-protected PDFs are not supported.". *)
Theorem password_failure_is_reported
        (env : Env) (f : File.t) (w w1 : World)
        (lib : PdfJs) (buffer : list Byte.byte) (e : Thrown) :
  firstFailing env f = None ->
  awaitLoadPdfJs env w = (Normal lib, w1) ->
  arrayBuffer env f = Normal buffer ->
  getDocument env lib buffer 0 = Throw e ->
  JsString.includes (underlyingMessage e) "password" = true ->
  JsString.includes (underlyingMessage e) "Invalid PDF" = false ->
  convertPdfToImage env f w
  = (Normal {| imageUrl := ""; file := None;
               error := Some "Password-protected PDFs are not supported." |},
     logged CalledGetDocument (logged ReadArrayBuffer w1)).
Proof.
  intros Hv Hl Hb Hd Hp Hi.
  rewrite convert_by_rules, Hv. unfold tryCatch, recover, ret.
  rewrite (conversionBody_parse_failure env f w w1 lib buffer e Hl Hb Hd).
  unfold classify. destruct e as [m|m]; cbn [underlyingMessage] in Hp, Hi;
    rewrite Hi, Hp; reflexivity.
Qed.

Lemma password_failure_is_reported_witness :
  fst (convertPdfToImage (parseFailsWith (ErrorInstance "No password given"))
                         resumePdf initialWorld)
  = Normal (failure "Password-protected PDFs are not supported.").
Proof.
  rewrite (password_failure_is_reported
             (parseFailsWith (ErrorInstance "No password given"))
             resumePdf initialWorld
             (snd (awaitLoadPdfJs (parseFailsWith (ErrorInstance "No password given"))
                                  initialWorld))
             {| moduleId := 1; workerSrc := "/assets/pdf.worker.min.mjs" |}
             pdfBytes
             (ErrorInstance "No password given")).
  - reflexivity.
  - vm_compute; reflexivity.
  - vm_compute; reflexivity.
  - reflexivity.
  - reflexivity.
  - vm_compute; reflexivity.
  - vm_compute; reflexivity.
Defined.

(** C9: in a browser, the media-type test of the format rule is the
    case-sensitive substring test for "pdf": a file whose declared type
    contains "pdf" (such as "text/pdfish") gets past the format rule
    whatever its name is, and goes on to the size rule and the conversion;
    a file whose type does not contain lower-case "pdf" (such as
    "application/PDF") and whose name does not end in [.pdf] in any case
    is rejected with the format error. *)
Theorem format_rule_media_type (env : Env) (f : File.t) (w : World) :
  hasWindow env = true ->
  hasDocument env = true ->
  (if JsString.includes (File.type f) "pdf" then
     (exists a b, File.type f = a ++ "pdf" ++ b)
     /\ firstFailing env f <> Some PdfFormat
     /\ convertPdfToImage env f w = afterFormatRule env f w
   else if JsString.endsWith (JsString.toLowerCase (File.name f)) ".pdf" then
     convertPdfToImage env f w = afterFormatRule env f w
   else
     (forall a b, File.type f <> a ++ "pdf" ++ b)
     /\ convertPdfToImage env f w
        = (Normal {| imageUrl := ""; file := None; error := Some formatError |}, w))
  /\ JsString.includes "text/pdfish" "pdf" = true
  /\ JsString.includes "application/PDF" "pdf" = false.
Proof.
  intros Hw Hd. split; [|split; reflexivity].
  unfold convertPdfToImage, afterFormatRule, firstFailing, rulesInOrder.
  cbn [List.find ruleFails]. rewrite Hw, Hd. cbn [negb orb andb].
  destruct (JsString.includes (File.type f) "pdf") eqn:Ei; cbn [negb orb andb].
  - split; [apply includes_spec, Ei|]. split; [|reflexivity].
    destruct (negb _); discriminate.
  - destruct (JsString.endsWith _ ".pdf"); cbn [negb]; [reflexivity|].
    split; [|reflexivity].
    intros a b E.
    assert (H : JsString.includes (File.type f) "pdf" = true)
      by (apply includes_spec; eauto).
    congruence.
Qed.

Lemma format_rule_media_type_witness :
  convertPdfToImage browser upperCaseType initialWorld
  = (Normal (failure "File must be a PDF document."), initialWorld)
  /\ convertPdfToImage browser pdfishText initialWorld
     = afterFormatRule browser pdfishText initialWorld.
Proof.
  split.
  - destruct (format_rule_media_type browser upperCaseType initialWorld)
      as [H _]; [reflexivity | reflexivity |].
    destruct H as [_ H]. exact H.
  - destruct (format_rule_media_type browser pdfishText initialWorld)
      as [H _]; [reflexivity | reflexivity |].
    destruct H as (_ & _ & H). exact H.
Defined.

(** ** The uploader *)

Lemma reactDropzone_respects_maxSize :
  FileUploader.RespectsMaxSize FileUploader.reactDropzone.
Proof.
  intros opts dropped f. unfold FileUploader.reactDropzone.
  destruct (negb (FileUploader.multiple opts) && _); [intros []|].
  intros H. apply filter_In in H as [_ H].
  apply andb_true_iff in H as [_ H].
  unfold FileUploader.fileMatchSize in H.
  apply negb_true_iff in H.
  destruct (Z.gtb_spec (File.size f) (FileUploader.maxSize opts)); [discriminate|lia].
Qed.

Lemma head_In {A : Type} (l : list A) (x : A) : head l = Some x -> In x l.
Proof. destruct l; cbn; [discriminate|]. intros [= ->]. left. reflexivity. Qed.

Section UploaderAdmission.

Variable useDropzone :
  FileUploader.DropzoneOptions -> list File.t -> list File.t.
Hypothesis respects_maxSize : FileUploader.RespectsMaxSize useDropzone.

(** C10: a drop hands exactly one selection (a file or none) to the
    upload form, and a file selected this way has at most 20*1024*1024
    bytes, which is below the 50*1024*1024 of the converter; so the size
    test of [convertPdfToImage] is false for it, the size rule is never
    the first failing one, and the converter either stops at one of the
    first two rules or attempts the conversion. The bound on the size is
    the contract of the [maxSize] option of react-dropzone. *)
Theorem uploaded_file_never_too_large
        (dropped : list File.t) (c : FileUploader.Component) (f : File.t)
        (env : Env) (w : World) :
  FileUploader.selected useDropzone dropped c = Some f ->
  length (FileUploader.selections (FileUploader.drop useDropzone dropped c))
  = S (length (FileUploader.selections c))
  /\ (File.size f <= 20 * 1024 * 1024)%Z
  /\ (FileUploader.maxFileSize < maxSize)%Z
  /\ (File.size f >? maxSize)%Z = false
  /\ firstFailing env f <> Some SizeLimit
  /\ convertPdfToImage env f w
     = (if negb (hasWindow env) || negb (hasDocument env) then
          ret (failure contextError)
        else if negb (JsString.includes (File.type f) "pdf")
                && negb (JsString.endsWith (JsString.toLowerCase (File.name f)) ".pdf") then
          ret (failure formatError)
        else tryCatch (conversionBody env f) recover) w.
Proof.
  intros Hsel.
  assert (Hsize : (File.size f <= 20 * 1024 * 1024)%Z).
  { unfold FileUploader.selected, FileUploader.drop, FileUploader.onDrop in Hsel.
    cbn [FileUploader.file] in Hsel.
    apply head_In in Hsel. apply respects_maxSize in Hsel. exact Hsel. }
  assert (Hgt : (File.size f >? maxSize)%Z = false).
  { unfold maxSize. destruct (Z.gtb_spec (File.size f) (50 * 1024 * 1024)); [lia|reflexivity]. }
  split.
  { unfold FileUploader.drop, FileUploader.onDrop.
    cbn [FileUploader.selections]. rewrite length_app. cbn [length]. lia. }
  split; [exact Hsize|].
  split; [reflexivity|].
  split; [exact Hgt|].
  split.
  { unfold firstFailing, rulesInOrder. cbn [List.find].
    destruct (ruleFails env f BrowserContext); [discriminate|].
    destruct (ruleFails env f PdfFormat); [discriminate|].
    cbn [ruleFails].
    replace (File.size f <=? 50 * 1024 * 1024)%Z with true
      by (symmetry; apply Z.leb_le; lia).
    discriminate. }
  unfold convertPdfToImage. rewrite Hgt. reflexivity.
Qed.

End UploaderAdmission.

Lemma uploaded_file_never_too_large_witness :
  FileUploader.selected FileUploader.reactDropzone [resumePdf] FileUploader.mounted
  = Some resumePdf
  /\ (File.size resumePdf >? maxSize)%Z = false
  /\ firstFailing browser resumePdf <> Some SizeLimit.
Proof.
  split; [vm_compute; reflexivity|].
  destruct (uploaded_file_never_too_large
              FileUploader.reactDropzone reactDropzone_respects_maxSize
              [resumePdf] FileUploader.mounted resumePdf browser initialWorld)
    as (_ & _ & _ & H1 & H2 & _).
  - vm_compute; reflexivity.
  - split; [exact H1 | exact H2].
Defined.

(* ===================================================================== *)
(** * Further properties of the converter and the loader                 *)
(* ===================================================================== *)

Lemma awaitLoadPdfJs_effects (env : Env) (w : World) :
  effects (snd (awaitLoadPdfJs env w)) = (effects w ++ [CalledLoadPdfJs])%list.
Proof.
  unfold awaitLoadPdfJs.
  destruct (Loader.loadPdfJs (loader w)) as [[lib|p] s]; [reflexivity|].
  destruct (Loader.promises s !! p) as [[|lib|e]|];
    try reflexivity; destruct (importSettles env); reflexivity.
Qed.

(** The [try] block always calls the loader first and then walks down the
    pipeline, stopping at the first step that fails. *)
Lemma conversionBody_effects (env : Env) (f : File.t) (w : World) :
  exists n, 1 <= n <= 9
    /\ effects (snd (conversionBody env f w)) = (effects w ++ firstn n pipeline)%list.
Proof.
  pose proof (awaitLoadPdfJs_effects env w) as Hl.
  unfold conversionBody, bind, perform, ret, throw, logged, pipeline.
  destruct (awaitLoadPdfJs env w) as [[lib|e] w1]; cbn [snd] in Hl |- *;
    [|exists 1; split; [lia|exact Hl]].
  destruct (arrayBuffer env f) as [buffer|e]; cbn [snd effects];
    [|exists 2; split; [lia|]; rewrite Hl, <- app_assoc; reflexivity].
  destruct (getDocument env lib buffer 0) as [pdf|e]; cbn [snd effects];
    [|exists 3; split; [lia|]; rewrite Hl, <- !app_assoc; reflexivity].
  destruct (getPage env pdf 1) as [page|e]; cbn [snd effects];
    [|exists 4; split; [lia|]; rewrite Hl, <- !app_assoc; reflexivity].
  destruct (getViewport env page scale) as [viewport|e]; cbn [snd effects];
    [|exists 5; split; [lia|]; rewrite Hl, <- !app_assoc; reflexivity].
  destruct (getContext2d env); cbn [negb snd effects];
    [|exists 6; split; [lia|]; rewrite Hl, <- !app_assoc; reflexivity].
  destruct (render env page (canvasOf viewport) viewport) as [[]|e]; cbn [snd effects];
    [|exists 7; split; [lia|]; rewrite Hl, <- !app_assoc; reflexivity].
  destruct (toBlob env (canvasOf viewport) "image/png" quality) as [[blob|]|e];
    cbn [snd effects];
    [exists 9 | exists 8 | exists 8];
    (split; [lia|]; rewrite Hl, <- !app_assoc; reflexivity).
Qed.

(** X1: whatever the environment answers, a call of [convertPdfToImage]
    extends the log of interactions by an initial segment of the pipeline
    load, read, parse, get page, measure, create canvas, render, encode,
    create URL: no step runs before the ones in front of it, and none
    runs twice. *)
Theorem convert_steps_in_order (env : Env) (f : File.t) (w : World) :
  exists n, n <= 9
    /\ effects (snd (convertPdfToImage env f w)) = (effects w ++ firstn n pipeline)%list
    /\ loader (snd (convertPdfToImage env f w))
       = (if (n =? 0)%nat then loader w else loader (snd (awaitLoadPdfJs env w))).
Proof.
  rewrite convert_by_rules.
  destruct (firstFailing env f) as [r|].
  - exists 0. split; [lia|]. cbn [snd firstn]. rewrite app_nil_r. split; reflexivity.
  - destruct (conversionBody_effects env f w) as (n & Hn & He).
    pose proof (conversionBody_loader env f w) as Hl.
    exists n. split; [lia|].
    unfold tryCatch, recover, ret.
    destruct (conversionBody env f w) as [[r|e] w1]; cbn [snd] in *;
      (split; [exact He|]);
      destruct n as [|n]; try lia; exact Hl.
Qed.

(** X2: a result that carries a file is returned only when validation
    passed and every step of the pipeline succeeded; it then has no error,
    is the packaged blob of the encoder, and all nine steps were
    performed. *)
Theorem file_only_after_full_success
        (env : Env) (f : File.t) (w w' : World) (r : PdfConversionResult) (out : File.t) :
  convertPdfToImage env f w = (Normal r, w') ->
  file r = Some out ->
  firstFailing env f = None
  /\ (exists blob,
        RendersTo env f w blob
        /\ out = imageFileOf env f blob
        /\ imageUrl r = createObjectURL env blob)
  /\ error r = None
  /\ effects w' = (effects w ++ pipeline)%list.
Proof.
  intros Hc Hf. rewrite convert_by_rules in Hc.
  destruct (firstFailing env f) as [rule|].
  { injection Hc as <- _. discriminate Hf. }
  split; [reflexivity|].
  unfold tryCatch, recover, ret in Hc.
  destruct (conversionBody_outcomes env f w)
    as [(e & w1 & H) | [(w1 & H) | (blob & w1 & Hr & H)]]; rewrite H in Hc.
  - injection Hc as <- _. discriminate Hf.
  - injection Hc as <- _. discriminate Hf.
  - injection Hc as <- <-. cbn [file imageUrl error] in *.
    injection Hf as <-.
    split; [exists blob; repeat split; exact Hr|].
    split; [reflexivity|].
    destruct Hr as (lib & w0 & buffer & pdf & page & viewport
                    & Hl & Hb & Hd & Hp & Hv & Hx & Hrd & Ht).
    pose proof (awaitLoadPdfJs_effects env w) as He.
    unfold conversionBody, bind, perform, ret, throw, logged in H.
    rewrite Hl, Hb, Hd, Hp, Hv, Hx in H. cbn [negb] in H. rewrite Hrd, Ht in H.
    injection H as <-. rewrite Hl in He. cbn [snd effects] in *.
    rewrite He, <- !app_assoc. reflexivity.
Qed.

Lemma file_only_after_full_success_witness :
  firstFailing browser resumePdf = None
  /\ effects (snd (convertPdfToImage browser resumePdf initialWorld)) = pipeline.
Proof.
  destruct (file_only_after_full_success
              browser resumePdf initialWorld
              (snd (convertPdfToImage browser resumePdf initialWorld))
              {| imageUrl := "blob:resumate/0";
                 file := Some (imageFileOf browser resumePdf pngBlob);
                 error := None |}
              (imageFileOf browser resumePdf pngBlob))
    as (H1 & _ & _ & H2).
  - vm_compute; reflexivity.
  - reflexivity.
  - split; [exact H1 | exact H2].
Defined.

(** X3: when the page was loaded, parsed and measured but the canvas gives
    no 2D context, the conversion fails with "Could not get 2D canvas
    context"; the page is never rendered and nothing is encoded. *)
Theorem missing_canvas_context_is_reported
        (env : Env) (f : File.t) (w w1 : World) (page : PdfPage) (viewport : Viewport) :
  firstFailing env f = None ->
  Measured env f w w1 page viewport ->
  getContext2d env = false ->
  fst (convertPdfToImage env f w)
  = Normal {| imageUrl := ""; file := None;
              error := Some "Could not get 2D canvas context" |}
  /\ effects (snd (convertPdfToImage env f w))
     = (effects w ++ firstn 6 pipeline)%list
  /\ ~ In CalledRender (firstn 6 pipeline)
  /\ ~ In CalledToBlob (firstn 6 pipeline).
Proof.
  intros Hv (lib & buffer & pdf & Hl & Hb & Hd & Hp & Hg) Hc.
  pose proof (awaitLoadPdfJs_effects env w) as He. rewrite Hl in He.
  rewrite convert_by_rules, Hv.
  unfold tryCatch, recover, ret, conversionBody, bind, perform, throw, logged.
  rewrite Hl, Hb, Hd, Hp, Hg, Hc. cbn [negb fst snd effects] in *.
  split; [reflexivity|]. split.
  - rewrite He, <- !app_assoc. reflexivity.
  - split; cbn; intuition discriminate.
Qed.

Lemma missing_canvas_context_is_reported_witness :
  fst (convertPdfToImage noCanvasContext resumePdf initialWorld)
  = Normal (failure "Could not get 2D canvas context").
Proof.
  destruct (missing_canvas_context_is_reported
              noCanvasContext resumePdf initialWorld
              (snd (awaitLoadPdfJs noCanvasContext initialWorld))
              {| pageOf := 1; pageNumber := 1 |}
              {| width := 612 * scale; height := 792 * scale |})
    as [H _].
  - vm_compute; reflexivity.
  - unfold Measured. repeat eexists; vm_compute; reflexivity.
  - reflexivity.
  - exact H.
Defined.

(** X4: when the page was rendered but the encoder hands no blob to the
    callback, the result is the failure "Failed to create image blob from
    PDF": no file is packaged and no object URL is created. *)
Theorem missing_blob_is_reported
        (env : Env) (f : File.t) (w w1 : World) (page : PdfPage) (viewport : Viewport) :
  firstFailing env f = None ->
  Measured env f w w1 page viewport ->
  getContext2d env = true ->
  render env page (canvasOf viewport) viewport = Normal tt ->
  toBlob env (canvasOf viewport) "image/png" quality = Normal None ->
  fst (convertPdfToImage env f w)
  = Normal {| imageUrl := ""; file := None;
              error := Some "Failed to create image blob from PDF" |}
  /\ effects (snd (convertPdfToImage env f w))
     = (effects w ++ firstn 8 pipeline)%list
  /\ ~ In CreatedObjectURL (firstn 8 pipeline).
Proof.
  intros Hv (lib & buffer & pdf & Hl & Hb & Hd & Hp & Hg) Hc Hr Ht.
  pose proof (awaitLoadPdfJs_effects env w) as He. rewrite Hl in He.
  rewrite convert_by_rules, Hv.
  unfold tryCatch, recover, ret, conversionBody, bind, perform, throw, logged.
  rewrite Hl, Hb, Hd, Hp, Hg, Hc. cbn [negb]. rewrite Hr, Ht.
  cbn [fst snd effects] in *.
  split; [reflexivity|]. split.
  - rewrite He, <- !app_assoc. reflexivity.
  - cbn; intuition discriminate.
Qed.

Lemma missing_blob_is_reported_witness :
  fst (convertPdfToImage noBlob resumePdf initialWorld)
  = Normal (failure "Failed to create image blob from PDF").
Proof.
  destruct (missing_blob_is_reported
              noBlob resumePdf initialWorld
              (snd (awaitLoadPdfJs noBlob initialWorld))
              {| pageOf := 1; pageNumber := 1 |}
              {| width := 612 * scale; height := 792 * scale |})
    as [H _].
  - vm_compute; reflexivity.
  - unfold Measured. repeat eexists; vm_compute; reflexivity.
  - reflexivity.
  - vm_compute; reflexivity.
  - reflexivity.
  - exact H.
Defined.

(** X5: the size limit is inclusive. For a file that gets past the context
    and format rules, the loader is called exactly when the size is at
    most 50*1024*1024 bytes: a file of exactly that size is converted, one
    byte more is turned away untouched. *)
Theorem size_limit_is_inclusive (env : Env) (f : File.t) (w : World) :
  ruleFails env f BrowserContext = false ->
  ruleFails env f PdfFormat = false ->
  (if (File.size f <=? 50 * 1024 * 1024)%Z then
     exists n, 1 <= n
       /\ effects (snd (convertPdfToImage env f w)) = (effects w ++ firstn n pipeline)%list
       /\ hd_error (firstn n pipeline) = Some CalledLoadPdfJs
   else
     convertPdfToImage env f w = (Normal (failure sizeError), w)).
Proof.
  intros H1 H2. rewrite convert_by_rules.
  unfold firstFailing, rulesInOrder. cbn [List.find]. rewrite H1, H2.
  cbn [ruleFails].
  destruct (File.size f <=? 50 * 1024 * 1024)%Z; cbn [negb]; [|reflexivity].
  destruct (conversionBody_effects env f w) as (n & Hn & He).
  exists n. split; [lia|].
  unfold tryCatch, recover, ret.
  destruct (conversionBody env f w) as [[r|e] w1]; cbn [snd] in *;
    (split; [exact He|]); destruct n; try lia; reflexivity.
Qed.

Lemma size_limit_is_inclusive_witness :
  (exists n, 1 <= n
     /\ effects (snd (convertPdfToImage browser pdfAtLimit initialWorld))
        = (effects initialWorld ++ firstn n pipeline)%list
     /\ hd_error (firstn n pipeline) = Some CalledLoadPdfJs)
  /\ convertPdfToImage browser bigPdf initialWorld
     = (Normal (failure sizeError), initialWorld).
Proof.
  split.
  - apply (size_limit_is_inclusive browser pdfAtLimit initialWorld); reflexivity.
  - apply (size_limit_is_inclusive browser bigPdf initialWorld); reflexivity.
Defined.

Lemma step_loadedWith (url : string) (lib : PdfJs) (ev : Loader.Event) :
  Loader.step url (loadedWith lib) ev = loadedWith lib.
Proof. destruct ev as [|p l|p e]; [reflexivity| |]; destruct p as [|[|p]]; reflexivity. Qed.

Lemma run_loadedWith (url : string) (lib : PdfJs) (evs : list Loader.Event) :
  Loader.run url evs (loadedWith lib) = loadedWith lib.
Proof.
  induction evs as [|ev evs IH]; [reflexivity|].
  cbn [Loader.run fold_left]. rewrite step_loadedWith. exact IH.
Qed.

(** In a reachable state a memoized module is the configured one. *)
Lemma run_configured (url : string) (evs : list Loader.Event) (s : Loader.State) (lib : PdfJs) :
  Loader.Shape s ->
  (forall l, Loader.pdfjsLib s = Some l -> workerSrc l = url) ->
  Loader.pdfjsLib (Loader.run url evs s) = Some lib ->
  workerSrc lib = url /\ Loader.run url evs s = loadedWith lib.
Proof.
  revert s. induction evs as [|ev evs IH]; intros s Hs Hc Hl.
  - cbn in Hl. split; [apply Hc, Hl|].
    destruct Hs; cbn in Hl; try discriminate Hl. injection Hl as ->. reflexivity.
  - cbn [Loader.run fold_left] in *. apply (IH (Loader.step url s ev)).
    + apply Shape_step, Hs.
    + intros l. destruct Hs; destruct ev as [|p l'|p e']; cbn;
        try (destruct p as [|[|p]]; cbn); try discriminate;
        try (intros [= <-]; reflexivity);
        try (intros H; apply Hc; exact H).
    + exact Hl.
Qed.

(** X6: once the import has resolved, the memoized module is the one whose
    worker source was set to the worker URL, and it stays: whatever calls
    and settlements follow, the state of the loader does not change and
    every call returns that module at once. *)
Theorem memoized_module_is_configured_and_kept
        (url : string) (evs later : list Loader.Event) (lib : PdfJs) :
  Loader.pdfjsLib (Loader.run url evs Loader.init) = Some lib ->
  workerSrc lib = url
  /\ Loader.run url (evs ++ later) Loader.init = Loader.run url evs Loader.init
  /\ Loader.loadPdfJs (Loader.run url (evs ++ later) Loader.init)
     = (Loader.Handle lib, Loader.run url evs Loader.init).
Proof.
  intros H.
  destruct (run_configured url evs Loader.init lib) as [Hw Hs];
    [constructor | discriminate | exact H |].
  split; [exact Hw|].
  assert (Hr : Loader.run url (evs ++ later) Loader.init = Loader.run url evs Loader.init).
  { unfold Loader.run at 1. rewrite fold_left_app.
    fold (Loader.run url evs Loader.init). rewrite Hs. apply run_loadedWith. }
  split; [exact Hr|]. rewrite Hr, Hs. reflexivity.
Qed.

Lemma memoized_module_is_configured_and_kept_witness :
  Loader.loadPdfJs
    (Loader.run "/assets/pdf.worker.min.mjs"
                (callThenSuccess ++ [Loader.Call; Loader.ImportRejects 0 fetchFailed])
                Loader.init)
  = (Loader.Handle {| moduleId := 7; workerSrc := "/assets/pdf.worker.min.mjs" |},
     Loader.run "/assets/pdf.worker.min.mjs" callThenSuccess Loader.init).
Proof.
  destruct (memoized_module_is_configured_and_kept
              "/assets/pdf.worker.min.mjs" callThenSuccess
              [Loader.Call; Loader.ImportRejects 0 fetchFailed]
              {| moduleId := 7; workerSrc := "/assets/pdf.worker.min.mjs" |})
    as (_ & _ & H).
  - reflexivity.
  - exact H.
Defined.

Lemma convert_failedWith (e : Thrown) (env : Env) (f : File.t) (w : World) :
  loader w = failedWith e ->
  exists r w',
    convertPdfToImage env f w = (Normal r, w')
    /\ file r = None /\ loader w' = failedWith e.
Proof.
  intros Hw. rewrite convert_by_rules.
  destruct (firstFailing env f) as [rule|].
  - eexists. eexists. split; [reflexivity|]. split; [reflexivity|exact Hw].
  - unfold tryCatch, recover, ret, conversionBody, bind, awaitLoadPdfJs.
    rewrite Hw. cbn. eexists. eexists. split; [reflexivity|]. split; reflexivity.
Qed.

Lemma convertAll_failedWith (e : Thrown) (calls : list (Env * File.t)) (w : World) :
  loader w = failedWith e ->
  Forall (fun c => exists r, c = Normal r /\ file r = None) (fst (convertAll calls w))
  /\ loader (snd (convertAll calls w)) = failedWith e.
Proof.
  revert w. induction calls as [|[env f] calls IH]; intros w Hw.
  - split; [constructor|exact Hw].
  - cbn [convertAll].
    destruct (convert_failedWith e env f w Hw) as (r & w' & Hc & Hf & Hw').
    rewrite Hc. destruct (IH w' Hw') as [IH1 IH2].
    destruct (convertAll calls w') as [rs w'']. cbn [fst snd] in *.
    split; [|exact IH2]. constructor; [|exact IH1]. exists r. split; [reflexivity|exact Hf].
Qed.

(** X7: a failed load is final for the process. Once the promise of the
    load has been rejected, every later conversion, with any file and in
    any environment, returns a result without a file, and the loader never
    starts another import. *)
Theorem failed_load_blocks_every_conversion
        (url : string) (evs : list Loader.Event) (p : nat) (e : Thrown)
        (calls : list (Env * File.t)) (w : World) :
  loader w = Loader.run url evs Loader.init ->
  Loader.promises (loader w) !! p = Some (Loader.Rejected e) ->
  Forall (fun c => exists r, c = Normal r /\ file r = None) (fst (convertAll calls w))
  /\ loader (snd (convertAll calls w)) = loader w
  /\ Loader.importsStarted (loader (snd (convertAll calls w))) = 1.
Proof.
  intros Hrun Hp.
  assert (Hs : Loader.Shape (loader w))
    by (rewrite Hrun; apply Shape_run; constructor).
  destruct (Shape_rejected _ _ _ Hs Hp) as [Hw _].
  destruct (convertAll_failedWith e calls w Hw) as [H1 H2].
  split; [exact H1|]. rewrite H2, Hw. split; reflexivity.
Qed.

Lemma failed_load_blocks_every_conversion_witness :
  Forall (fun c => exists r, c = Normal r /\ file r = None)
         (fst (convertAll [(browser, resumePdf); (browser, resumeNoExtension)]
                          {| loader := Loader.run "/assets/pdf.worker.min.mjs"
                                                  callThenFailure Loader.init;
                             effects := [] |})).
Proof.
  destruct (failed_load_blocks_every_conversion
              "/assets/pdf.worker.min.mjs" callThenFailure 0 fetchFailed
              [(browser, resumePdf); (browser, resumeNoExtension)]
              {| loader := Loader.run "/assets/pdf.worker.min.mjs"
                                      callThenFailure Loader.init;
                 effects := [] |})
    as [H _].
  - reflexivity.
  - vm_compute; reflexivity.
  - exact H.
Defined.

Lemma awaitLoadPdfJs_loadedWith (env : Env) (w : World) (lib : PdfJs) :
  loader w = loadedWith lib ->
  loader (snd (awaitLoadPdfJs env w)) = loadedWith lib.
Proof. intros Hw. unfold awaitLoadPdfJs. rewrite Hw. reflexivity. Qed.

Lemma convert_loader_cases (env : Env) (f : File.t) (w : World) :
  loader (snd (convertPdfToImage env f w)) = loader w
  \/ loader (snd (convertPdfToImage env f w)) = loader (snd (awaitLoadPdfJs env w)).
Proof.
  rewrite convert_by_rules.
  destruct (firstFailing env f); [left; reflexivity|]. right.
  pose proof (conversionBody_loader env f w) as Hl.
  unfold tryCatch, recover, ret.
  destruct (conversionBody env f w) as [[r|e] w1]; exact Hl.
Qed.

Lemma convert_loadedWith (env : Env) (f : File.t) (w : World) (lib : PdfJs) :
  loader w = loadedWith lib ->
  loader (snd (convertPdfToImage env f w)) = loadedWith lib.
Proof.
  intros Hw. destruct (convert_loader_cases env f w) as [H|H]; rewrite H;
    [exact Hw | apply awaitLoadPdfJs_loadedWith, Hw].
Qed.

Lemma convertAll_loadedWith (calls : list (Env * File.t)) (w : World) (lib : PdfJs) :
  loader w = loadedWith lib ->
  loader (snd (convertAll calls w)) = loadedWith lib.
Proof.
  revert w. induction calls as [|[env f] calls IH]; intros w Hw; [exact Hw|].
  cbn [convertAll].
  pose proof (convert_loadedWith env f w lib Hw) as H1.
  destruct (convertPdfToImage env f w) as [r w1]. cbn [snd] in H1.
  specialize (IH w1 H1). destruct (convertAll calls w1) as [rs w2]. exact IH.
Qed.

(** In a reachable state, a load that delivers a module leaves it
    memoized. *)
Lemma awaitLoadPdfJs_delivers (env : Env) (w w1 : World) (lib : PdfJs) :
  Loader.Shape (loader w) ->
  awaitLoadPdfJs env w = (Normal lib, w1) ->
  loader w1 = loadedWith lib.
Proof.
  intros Hs. unfold awaitLoadPdfJs.
  destruct Hs; cbn; try (destruct (importSettles env); cbn);
    intros [= <- <-] || intros [= <-] || discriminate; reflexivity.
Qed.

(** X8: in a process whose loader was only driven by [loadPdfJs] and its
    import, a conversion that returns a file leaves the module memoized,
    and no conversion after it touches the loader again: the library is
    fetched once and reused. *)
Theorem converted_once_loaded_for_good
        (url : string) (evs : list Loader.Event)
        (env : Env) (f : File.t) (w w' : World) (r : PdfConversionResult) (out : File.t)
        (calls : list (Env * File.t)) :
  loader w = Loader.run url evs Loader.init ->
  convertPdfToImage env f w = (Normal r, w') ->
  file r = Some out ->
  (exists lib, Loader.pdfjsLib (loader w') = Some lib)
  /\ loader (snd (convertAll calls w')) = loader w'
  /\ Loader.importsStarted (loader (snd (convertAll calls w'))) = 1.
Proof.
  intros Hrun Hc Hf.
  assert (Hs : Loader.Shape (loader w))
    by (rewrite Hrun; apply Shape_run; constructor).
  assert (Hl : exists lib, loader w' = loadedWith lib).
  { rewrite convert_by_rules in Hc.
    destruct (firstFailing env f) as [rule|].
    { injection Hc as <- _. discriminate Hf. }
    unfold tryCatch, recover, ret in Hc.
    pose proof (conversionBody_loader env f w) as Hld.
    destruct (conversionBody_outcomes env f w)
      as [(e & w1 & H) | [(w1 & H) | (blob & w1 & Hr & H)]];
      rewrite H in Hc, Hld; injection Hc as <- <-; try discriminate Hf.
    destruct Hr as (lib & w0 & _ & _ & _ & _ & Hload & _).
    exists lib. cbn [snd] in Hld. rewrite Hld, Hload. cbn [snd].
    apply (awaitLoadPdfJs_delivers env w w0 lib Hs Hload). }
  destruct Hl as [lib Hl].
  split; [exists lib; rewrite Hl; reflexivity|].
  rewrite (convertAll_loadedWith calls w' lib Hl), Hl. split; reflexivity.
Qed.

Lemma converted_once_loaded_for_good_witness :
  loader (snd (convertAll [(importFailsWith fetchFailed, resumePdf); (browser, bigPdf)]
                          (snd (convertPdfToImage browser resumePdf initialWorld))))
  = loader (snd (convertPdfToImage browser resumePdf initialWorld)).
Proof.
  destruct (converted_once_loaded_for_good
              "" [] browser resumePdf initialWorld
              (snd (convertPdfToImage browser resumePdf initialWorld))
              {| imageUrl := "blob:resumate/0";
                 file := Some (imageFileOf browser resumePdf pngBlob);
                 error := None |}
              (imageFileOf browser resumePdf pngBlob)
              [(importFailsWith fetchFailed, resumePdf); (browser, bigPdf)])
    as (_ & H & _).
  - reflexivity.
  - vm_compute; reflexivity.
  - reflexivity.
  - exact H.
Defined.

(* ===================================================================== *)
(** * The size label                                                      *)
(* ===================================================================== *)

Lemma string_append_assoc (a b c : string) : (a ++ b) ++ c = a ++ (b ++ c).
Proof. induction a as [|x a IH]; cbn [append]; congruence. Qed.

(** X9: from 1024 bytes on, the label is a figure with one decimal and the
    unit KB (below 1024*1024 bytes) or MB; the figure is at least 1.0 and
    differs from the exact number of units by at most one twentieth. *)
Theorem formatSize_is_within_half_a_tenth (bytes : Z) :
  (1024 <= bytes)%Z ->
  (bytes < 2 ^ 53)%Z ->
  exists (n : Z) (unit : string) (size : Z),
    formatSize bytes = decimal (n / 10) ++ "." ++ decimal (n mod 10) ++ unit
    /\ (unit, size)
       = (if (bytes <? 1024 * 1024)%Z then ("KB", 1024%Z) else ("MB", (1024 * 1024)%Z))
    /\ (10 <= n)%Z
    /\ (2 * Z.abs (n * size - 10 * bytes) <= size)%Z.
Proof.
  intros Hlo _. unfold formatSize, toFixed1. cbv zeta.
  rewrite !Z.geb_leb.
  destruct (Z.ltb_spec bytes (1024 * 1024)) as [Hlt|Hge].
  - replace (1024 * 1024 <=? bytes)%Z with false by (symmetry; apply Z.leb_gt; lia).
    replace (1024 <=? bytes)%Z with true by (symmetry; apply Z.leb_le; lia).
    exists ((20 * bytes + 1024) / (2 * 1024))%Z, "KB", 1024%Z.
    split; [rewrite !string_append_assoc; reflexivity|].
    split; [reflexivity|].
    change (2 * 1024)%Z with 2048%Z. split; Z.div_mod_to_equations; lia.
  - replace (1024 * 1024 <=? bytes)%Z with true by (symmetry; apply Z.leb_le; lia).
    exists ((20 * bytes + 1024 * 1024) / (2 * (1024 * 1024)))%Z, "MB", (1024 * 1024)%Z.
    split; [rewrite !string_append_assoc; reflexivity|].
    split; [reflexivity|].
    change (2 * (1024 * 1024))%Z with 2097152%Z.
    change (1024 * 1024)%Z with 1048576%Z in *. split; Z.div_mod_to_equations; lia.
Qed.

Lemma formatSize_is_within_half_a_tenth_witness :
  exists (n : Z) (unit : string) (size : Z),
    formatSize (20 * 1024 * 1024) = decimal (n / 10) ++ "." ++ decimal (n mod 10) ++ unit
    /\ (unit, size) = ("MB", (1024 * 1024)%Z)
    /\ (10 <= n)%Z
    /\ (2 * Z.abs (n * size - 10 * (20 * 1024 * 1024)) <= size)%Z.
Proof.
  apply (formatSize_is_within_half_a_tenth (20 * 1024 * 1024)).
  - vm_compute; discriminate.
  - vm_compute; reflexivity.
Defined.

(** X10: the unit is chosen before the figure is rounded, so a size in the
    last 51 bytes below 1024*1024 is labelled "1024.0KB", not "1.0MB". *)
Theorem formatSize_just_below_a_megabyte (bytes : Z) :
  (1048525 <= bytes)%Z ->
  (bytes < 1024 * 1024)%Z ->
  formatSize bytes = "1024.0KB".
Proof.
  intros Hlo Hhi. unfold formatSize, toFixed1. cbv zeta.
  rewrite !Z.geb_leb.
  replace (1024 * 1024 <=? bytes)%Z with false by (symmetry; apply Z.leb_gt; lia).
  replace (1024 <=? bytes)%Z with true by (symmetry; apply Z.leb_le; lia).
  change (2 * 1024)%Z with 2048%Z.
  replace ((20 * bytes + 1024) / 2048)%Z with 10240%Z
    by (change (1024 * 1024)%Z with 1048576%Z in Hhi; Z.div_mod_to_equations; lia).
  reflexivity.
Qed.

Lemma formatSize_just_below_a_megabyte_witness :
  formatSize 1048575 = "1024.0KB".
Proof.
  apply formatSize_just_below_a_megabyte.
  - vm_compute; discriminate.
  - vm_compute; reflexivity.
Defined.

(* ===================================================================== *)
(** * The upload form                                                     *)
(* ===================================================================== *)

Lemma trimStart_all (s : Str16) :
  forallb isWhiteSpace (trimStart s) = forallb isWhiteSpace s.
Proof.
  induction s as [|c s IH]; [reflexivity|].
  cbn [trimStart forallb]. destruct (isWhiteSpace c) eqn:E; [exact IH|].
  cbn [forallb]. rewrite E. reflexivity.
Qed.

Lemma trimEnd_blank (s : Str16) :
  isEmpty (trimEnd s) = forallb isWhiteSpace s.
Proof.
  induction s as [|c s IH]; [reflexivity|].
  cbn [trimEnd forallb]. destruct (trimEnd s) as [|d rest].
  - cbn [isEmpty] in IH. rewrite <- IH.
    destruct (isWhiteSpace c); reflexivity.
  - cbn [isEmpty] in IH |- *. rewrite <- IH. rewrite andb_false_r. reflexivity.
Qed.

(** [trim] leaves nothing exactly when every code unit is white space. *)
Lemma trim_blank (s : Str16) : isEmpty (trim s) = negb (hasText s).
Proof.
  unfold trim, hasText. rewrite trimEnd_blank, trimStart_all.
  induction s as [|c s IH]; [reflexivity|].
  cbn [forallb existsb]. rewrite IH.
  destruct (isWhiteSpace c); cbn [negb andb orb]; [reflexivity|].
  reflexivity.
Qed.

(** X11: the form is handed to the analysis exactly when each of company
    name, job title and job description has a code unit that is not white
    space and a file is selected; the fields go on as typed, untrimmed, and
    the page is left as it is. Otherwise the first item missing, in that
    order, sets the error text and nothing else changes. *)
Theorem handleSubmit_needs_text_and_file (form : Form) (s : Page.t) :
  handleSubmit (Some form) s
  = if negb (hasText (formCompanyName form)) then
      (withError "Company name is required" s, None)
    else if negb (hasText (formJobTitle form)) then
      (withError "Job title is required" s, None)
    else if negb (hasText (formJobDescription form)) then
      (withError "Job description is required" s, None)
    else
      match Page.file s with
      | None => (withError "Please upload a PDF resume" s, None)
      | Some f =>
          (s, Some {| companyName := formCompanyName form;
                      jobTitle := formJobTitle form;
                      jobDescription := formJobDescription form;
                      submittedFile := f |})
      end.
Proof.
  unfold handleSubmit, withError. rewrite !trim_blank. reflexivity.
Qed.

(** ** The uploader inside the form *)

Lemma uploaderStep_selections
      (useDropzone : FileUploader.DropzoneOptions -> list File.t -> list File.t)
      (c : FileUploader.Component) (ev : UploaderEvent) :
  FileUploader.selections (uploaderStep useDropzone c ev)
  = (FileUploader.selections c ++ [FileUploader.file (uploaderStep useDropzone c ev)])%list.
Proof. destruct ev; reflexivity. Qed.

(** X12: the uploader and the form never disagree. After any sequence of
    drops and removals, the last of which may have accepted nothing, the
    file the form holds through [handleFileSelect] is the file the
    uploader shows, the uploader has reported once per event, and the
    error text of the form is cleared. *)
Theorem uploader_and_form_agree
        (useDropzone : FileUploader.DropzoneOptions -> list File.t -> list File.t)
        (evs : list UploaderEvent) (ev : UploaderEvent) (s : Page.t) :
  let c := fold_left (uploaderStep useDropzone) (evs ++ [ev]) FileUploader.mounted in
  Page.file (notified (FileUploader.selections c) s) = FileUploader.file c
  /\ Page.errorText (notified (FileUploader.selections c) s) = ""
  /\ length (FileUploader.selections c) = S (length evs)
  /\ FileUploader.file c
     = match ev with
       | Dropped files => head (useDropzone FileUploader.options files)
       | RemoveClicked => None
       end.
Proof.
  cbv zeta. rewrite fold_left_app. cbn [fold_left].
  set (c0 := fold_left (uploaderStep useDropzone) evs FileUploader.mounted).
  rewrite uploaderStep_selections. unfold notified. rewrite fold_left_app.
  cbn [fold_left]. split; [reflexivity|]. split; [reflexivity|]. split.
  - rewrite length_app. cbn [length].
    assert (H : length (FileUploader.selections c0) = length evs).
    { subst c0. clear. 
      assert (G : forall c,
                 length (FileUploader.selections
                           (fold_left (uploaderStep useDropzone) evs c))
                 = (length (FileUploader.selections c) + length evs)%nat).
      { induction evs as [|e evs IH]; intros c; cbn [fold_left length]; [lia|].
        rewrite IH, uploaderStep_selections, length_app. cbn [length]. lia. }
      rewrite G. reflexivity. }
    lia.
  - destruct ev; reflexivity.
Qed.

(* ===================================================================== *)
(** * The analysis started by the upload page                             *)
(* ===================================================================== *)

Ltac unfold_flow :=
  unfold Upload.handleAnalyze, Upload.analysis, UploadB.handleAnalyze, UploadB.analysis,
    analysisFailed, feedbackTextOf, awaitConvert, call,
    setIsProcessing, setStatusText, setErrorText, setFile,
    Flow.tryFinally, Flow.tryCatch, Flow.bind, Flow.update, Flow.throw, Flow.ret;
  cbn [Page.isProcessing Page.statusText Page.errorText Page.file Page.world Page.calls
       fst snd].

Ltac page_cbn :=
  cbn [Page.isProcessing Page.statusText Page.errorText Page.file Page.world Page.calls
       fst snd].

Lemma orElse_truthy (value : option string) (fallback : string) :
  fallback <> "" -> orElse value fallback <> "".
Proof.
  intros Hf. unfold orElse, truthy. destruct value as [s|]; [|exact Hf].
  destruct (String.eqb_spec s ""); cbn [negb]; assumption.
Qed.

(** X13: in the page of FileUploader.tsx, when the PDF was stored and the
    converter returns no file, the analysis stops there: the error shown is
    the error of the converter, or "Failed to convert PDF to image" when
    that is missing or empty, so it is never empty; the spinner is off, the
    status is cleared, and besides the upload of the PDF, which stays in
    the store, no service was called. *)
Theorem conversion_failure_is_shown
        (sv : Puter.Services) (a : Submission) (s : Page.t)
        (stored : Puter.FSItem) (r : PdfConversionResult) (w' : World) :
  Puter.upload sv 0 [submittedFile a] = Normal (Some stored) ->
  convertPdfToImage (Puter.pdf sv) (submittedFile a) (Page.world s) = (Normal r, w') ->
  file r = None ->
  let s' := snd (Upload.handleAnalyze sv a s) in
  Page.errorText s' = orElse (error r) "Failed to convert PDF to image"
  /\ Page.errorText s' <> ""
  /\ Page.isProcessing s' = false
  /\ Page.statusText s' = ""
  /\ Page.calls s' = (Page.calls s ++ [Puter.FsUpload [submittedFile a]])%list
  /\ Page.world s' = w'
  /\ Page.file s' = Page.file s.
Proof.
  intros Hu Hc Hf. cbv zeta. unfold_flow. rewrite Hu. page_cbn. rewrite Hc. page_cbn.
  rewrite Hf. destruct (truthyOpt (error r)); page_cbn;
    repeat split; apply orElse_truthy; discriminate.
Qed.

Lemma conversion_failure_is_shown_witness :
  Page.errorText
    (snd (Upload.handleAnalyze
            (workingServices (parseFailsWith (ErrorInstance "")) "{}")
            filledSubmission Page.initial))
  = "Failed to convert PDF to image".
Proof.
  destruct (conversion_failure_is_shown
              (workingServices (parseFailsWith (ErrorInstance "")) "{}")
              filledSubmission Page.initial
              {| Puter.path := "/resume.pdf" |}
              (failure "")
              (snd (convertPdfToImage (parseFailsWith (ErrorInstance ""))
                                      resumePdf initialWorld)))
    as [H _].
  - reflexivity.
  - vm_compute; reflexivity.
  - reflexivity.
  - exact H.
Defined.

(** X14: in the page of part_001, when the PDF was stored and the
    converter returns no file, the error shown is always "Failed to convert
    PDF to image": what the converter reported is dropped. The rest is as
    in the other page. *)
Theorem conversion_failure_is_generic
        (sv : Puter.Services) (a : Submission) (s : Page.t)
        (stored : Puter.FSItem) (r : PdfConversionResult) (w' : World) :
  Puter.upload sv 0 [submittedFile a] = Normal (Some stored) ->
  convertPdfToImage (Puter.pdf sv) (submittedFile a) (Page.world s) = (Normal r, w') ->
  file r = None ->
  let s' := snd (UploadB.handleAnalyze sv a s) in
  Page.errorText s' = "Failed to convert PDF to image"
  /\ Page.isProcessing s' = false
  /\ Page.statusText s' = ""
  /\ Page.calls s' = (Page.calls s ++ [Puter.FsUpload [submittedFile a]])%list
  /\ Page.world s' = w'
  /\ Page.file s' = Page.file s.
Proof.
  intros Hu Hc Hf. cbv zeta. unfold_flow. rewrite Hu. page_cbn. rewrite Hc. page_cbn.
  rewrite Hf. repeat split.
Qed.

Lemma conversion_failure_is_generic_witness :
  Page.errorText
    (snd (UploadB.handleAnalyze
            (workingServices (parseFailsWith (ErrorInstance "No password given")) "{}")
            filledSubmission Page.initial))
  = "Failed to convert PDF to image".
Proof.
  destruct (conversion_failure_is_generic
              (workingServices (parseFailsWith (ErrorInstance "No password given")) "{}")
              filledSubmission Page.initial
              {| Puter.path := "/resume.pdf" |}
              (failure passwordText)
              (snd (convertPdfToImage (parseFailsWith (ErrorInstance "No password given"))
                                      resumePdf initialWorld)))
    as [H _].
  - reflexivity.
  - vm_compute; reflexivity.
  - reflexivity.
  - exact H.
Defined.




(** X16: when both uploads, the conversion, the store and the AI succeed,
    both versions of the page write the record twice under the key
    "resume:<uuid>", first with an empty feedback and then with the parsed
    answer, and navigate to "/resume/<uuid>" (the page of part_001 after
    1000 ms). An answer that is not valid JSON does not stop the analysis:
    the second write then stores an object holding an error label and the
    raw answer, and the page navigates all the same, showing no error. *)
Theorem completed_analysis_is_saved_twice
        (sv : Puter.Services) (a : Submission) (s : Page.t)
        (storedFile storedImage : Puter.FSItem) (r : PdfConversionResult) (w' : World)
        (image : File.t) (answer : Puter.AIResponse) (text : string) :
  Puter.upload sv 0 [submittedFile a] = Normal (Some storedFile) ->
  convertPdfToImage (Puter.pdf sv) (submittedFile a) (Page.world s) = (Normal r, w') ->
  file r = Some image ->
  error r = None ->
  Puter.upload sv 1 [image] = Normal (Some storedImage) ->
  (forall n key value, Puter.kvSet sv n key value = Normal tt) ->
  Puter.aiFeedback sv (Puter.path storedFile)
                   (Puter.prepareInstructions sv (jobTitle a) (jobDescription a))
  = Normal (Some answer) ->
  answerText answer = Some text ->
  (let s' := snd (Upload.handleAnalyze sv a s) in
   Page.calls s'
   = (Page.calls s
      ++ completedCalls sv a image storedFile storedImage
           match Puter.parse sv text with
           | Normal parsed => parsed
           | Throw _ => JObject [("error", JString "Failed to parse AI feedback");
                                 ("rawFeedback", JString text)]
           end
           (Puter.Navigate ("/resume/" ++ Puter.generateUUID sv)))%list
   /\ Page.errorText s' = ""
   /\ Page.isProcessing s' = false
   /\ Page.world s' = w')
  /\ (let s' := snd (UploadB.handleAnalyze sv a s) in
      Page.calls s'
      = (Page.calls s
         ++ completedCalls sv a image storedFile storedImage
              match Puter.parse sv text with
              | Normal parsed => parsed
              | Throw _ => JObject [("error", JString "Parse error");
                                    ("raw", JString text)]
              end
              (Puter.NavigateAfter 1000 ("/resume/" ++ Puter.generateUUID sv)))%list
      /\ Page.errorText s' = ""
      /\ Page.isProcessing s' = false
      /\ Page.world s' = w').
Proof.
  intros Hu Hc Hf He Hi Hkv Hai Ht.
  assert (Hft : forall p : Page.t, feedbackTextOf sv answer p = (Normal text, p)).
  { intros p. unfold feedbackTextOf, answerText in *.
    destruct (Puter.content answer) as [t|[|t ts]]; cbn in Ht; try discriminate Ht;
      injection Ht as ->; reflexivity. }
  unfold completedCalls, recordOf.
  split; cbv zeta;
    unfold Upload.handleAnalyze, Upload.analysis, UploadB.handleAnalyze, UploadB.analysis,
      analysisFailed, awaitConvert, call,
      setIsProcessing, setStatusText, setErrorText, setFile,
      Flow.tryFinally, Flow.tryCatch, Flow.bind, Flow.update, Flow.throw, Flow.ret;
    page_cbn; rewrite Hu; page_cbn; rewrite Hc; page_cbn; rewrite Hf, ?He;
    cbn [truthyOpt]; page_cbn; rewrite Hi; page_cbn; rewrite Hkv; page_cbn;
    rewrite Hai; page_cbn; rewrite Hft; page_cbn;
    destruct (Puter.parse sv text) as [parsed|e]; page_cbn; rewrite Hkv; page_cbn;
    rewrite <- !app_assoc; repeat split.
Qed.

Lemma completed_analysis_is_saved_twice_witness :
  Page.calls (snd (Upload.handleAnalyze (workingServices browser "not json")
                                        filledSubmission Page.initial))
  = [Puter.FsUpload [resumePdf];
     Puter.FsUpload [imageFileOf browser resumePdf pngBlob];
     Puter.KvSet "resume:42" "42";
     Puter.AiFeedback "/resume.pdf" "instructions";
     Puter.KvSet "resume:42" "42";
     Puter.Navigate "/resume/42"].
Proof.
  destruct (completed_analysis_is_saved_twice
              (workingServices browser "not json") filledSubmission Page.initial
              {| Puter.path := "/resume.pdf" |} {| Puter.path := "/resume.png" |}
              {| imageUrl := "blob:resumate/0";
                 file := Some (imageFileOf browser resumePdf pngBlob);
                 error := None |}
              (snd (convertPdfToImage browser resumePdf initialWorld))
              (imageFileOf browser resumePdf pngBlob)
              {| Puter.content := Puter.Text "not json" |}
              "not json")
    as [[H _] _].
  - reflexivity.
  - vm_compute; reflexivity.
  - reflexivity.
  - reflexivity.
  - reflexivity.
  - reflexivity.
  - reflexivity.
  - reflexivity.
  - exact H.
Defined.

(** X17: when the first upload does not deliver an item, both versions of
    the page stop before the conversion: the converter and its loader are
    not touched, the upload is the only call made, the spinner is off, and
    the error shown is "Failed to upload file" when the store answered
    nothing, the message of the [Error] it threw, or "Unknown error
    occurred" when it threw something that is not an [Error]. *)
Theorem upload_failure_skips_conversion
        (sv : Puter.Services) (a : Submission) (s : Page.t) :
  (forall stored, Puter.upload sv 0 [submittedFile a] <> Normal (Some stored)) ->
  snd (Upload.handleAnalyze sv a s) = snd (UploadB.handleAnalyze sv a s)
  /\ (let s' := snd (Upload.handleAnalyze sv a s) in
      Page.errorText s'
      = match Puter.upload sv 0 [submittedFile a] with
        | Throw (ErrorInstance message) => message
        | Throw (OtherValue _) => "Unknown error occurred"
        | Normal _ => "Failed to upload file"
        end
      /\ Page.world s' = Page.world s
      /\ Page.calls s' = (Page.calls s ++ [Puter.FsUpload [submittedFile a]])%list
      /\ Page.isProcessing s' = false
      /\ Page.statusText s' = "").
Proof.
  intros Hno. cbv zeta. unfold_flow.
  destruct (Puter.upload sv 0 [submittedFile a]) as [[stored|]|[m|v]];
    [exfalso; apply (Hno stored); reflexivity| | |];
    page_cbn; repeat split.
Qed.

Lemma upload_failure_skips_conversion_witness :
  Page.errorText (snd (Upload.handleAnalyze storageUnavailable filledSubmission Page.initial))
  = "Failed to upload file"
  /\ Page.world (snd (Upload.handleAnalyze storageUnavailable filledSubmission Page.initial))
     = initialWorld.
Proof.
  destruct (upload_failure_skips_conversion storageUnavailable filledSubmission Page.initial)
    as (_ & H1 & H2 & _).
  - intros stored. discriminate.
  - split; [exact H1 | exact H2].
Defined.

(* ===================================================================== *)
(** * The result page                                                     *)
(* ===================================================================== *)

Ltac unfold_resume :=
  unfold Resume.loadResumeData, Resume.loadImage, Resume.render,
    Flow.tryCatch, Flow.bind, Flow.update, Flow.throw, Flow.ret,
    Resume.setError, Resume.setLoading, Resume.setResumeData, Resume.setImageUrl;
  cbn [Resume.resumeData Resume.imageUrl Resume.loading Resume.error fst snd].





(** X20: the error text is never cleared. If the component already shows
    an error when [loadResumeData] runs again (the effect depends on [id],
    [kv] and [fs]), it still shows an error afterwards, even when this
    load finds and parses the record: the new data is stored but the old
    message keeps the error view on screen. *)
Theorem stale_error_hides_results
        (sv : Resume.Services) (id : option string) (s : Resume.State) :
  Resume.error s <> "" ->
  exists message,
    message <> ""
    /\ Resume.render (snd (Resume.loadResumeData sv id s)) = Resume.ErrorView message.
Proof.
  intros He.
  assert (T : truthy (Resume.error s) = true)
    by (unfold truthy; destruct (String.eqb_spec (Resume.error s) "");
        [contradiction|reflexivity]).
  unfold_resume.
  destruct (negb (truthyOpt id));
    cbn [Resume.resumeData Resume.imageUrl Resume.loading Resume.error fst snd];
    [eexists; split; [|reflexivity]; discriminate|].
  destruct (Resume.kvGet sv ("resume:" ++ orElse id "")) as [data|e];
    cbn [Resume.resumeData Resume.imageUrl Resume.loading Resume.error fst snd];
    [|eexists; split; [|reflexivity]; discriminate].
  destruct (negb (truthyOpt data));
    cbn [Resume.resumeData Resume.imageUrl Resume.loading Resume.error fst snd];
    [eexists; split; [|reflexivity]; discriminate|].
  destruct (Resume.parse sv (orElse data "")) as [parsed|e];
    cbn [Resume.resumeData Resume.imageUrl Resume.loading Resume.error fst snd];
    [|eexists; split; [|reflexivity]; discriminate].
  exists (Resume.error s). split; [exact He|].
  destruct (Resume.imagePathOf sv parsed) as [path|e];
    cbn [Resume.resumeData Resume.imageUrl Resume.loading Resume.error fst snd];
    [destruct (Resume.fsRead sv path) as [blob|e];
     cbn [Resume.resumeData Resume.imageUrl Resume.loading Resume.error fst snd];
     [destruct (Resume.createObjectURL sv blob) as [url|e];
      cbn [Resume.resumeData Resume.imageUrl Resume.loading Resume.error fst snd]|]|];
    rewrite T; reflexivity.
Qed.

Lemma stale_error_hides_results_witness :
  exists message,
    message <> ""
    /\ Resume.render
         (snd (Resume.loadResumeData storeWithoutImage (Some "42")
                 {| Resume.resumeData := JNull; Resume.imageUrl := "";
                    Resume.loading := false;
                    Resume.error := "Resume analysis not found" |}))
       = Resume.ErrorView message.
Proof.
  apply (stale_error_hides_results storeWithoutImage (Some "42")).
  discriminate.
Defined.
